(** * VLM-based surveillance system: frame triage and two-stage anomaly decision

    A shallow embedding of [anomaly_detector.py], [config.py], [camera.py]
    and [surveillance.py], followed by the properties established for it.

    Conventions of the embedding:
    - Python [str] values are [string]s; [str.lower] is the ASCII
      lower-casing, with which Python agrees on ASCII text; [x in s] on
      strings is the substring test [contains].
    - [float] seconds ([time.time()], [FRAME_INTERVAL]) and contour areas
      are exact rationals [Q]: rounding is not modelled.
    - The remote classifier, the capture device and OpenCV are external;
      they appear as oracles (records or classes of functions).
    - Calls to the classifier are recorded in a call log, and the records
      the INFO-level logger of [surveillance.py] emits are kept as a list of
      events, so that "is never called" and "never happens" can be stated. *)

From Stdlib Require Import List String Ascii Bool Arith ZArith QArith Lia Lqa.
From Stdlib Require Import Sorting.Sorted.
From Stdlib Require Import Numbers.DecimalString.
Import ListNotations.

Local Open Scope string_scope.
Local Open Scope bool_scope.

(* ===================================================================== *)
(** ** Python strings *)

Module PyStr.

(** [c.lower()] on one ASCII character. *)
Definition lower_char (c : ascii) : ascii :=
  let n := nat_of_ascii c in
  if (65 <=? n)%nat && (n <=? 90)%nat then ascii_of_nat (n + 32) else c.

(** [s.lower()]. *)
Fixpoint lower (s : string) : string :=
  match s with
  | EmptyString => EmptyString
  | String c s' => String (lower_char c) (lower s')
  end.

(** [p in s]: [p] occurs in [s] as a contiguous substring. *)
Fixpoint contains (p s : string) : bool :=
  String.prefix p s ||
  match s with
  | EmptyString => false
  | String _ s' => contains p s'
  end.

(** [str(n)] for a non-negative [int]. *)
Definition str_of_nat (n : nat) : string :=
  NilEmpty.string_of_uint (Nat.to_uint n).

(** All suffixes of a string, the string itself first. *)
Fixpoint tails (s : string) : list string :=
  s :: match s with
       | EmptyString => []
       | String _ s' => tails s'
       end.

(** Some non-empty suffix of [p] is a prefix of [t]: an occurrence of
    [p] could straddle the junction of [s ++ t]. *)
Definition overlaps (p t : string) : bool :=
  existsb (fun v => negb (String.eqb v "") && String.prefix v t) (tails p).

End PyStr.

(* ===================================================================== *)
(** ** config.py *)

Module config.

Definition ANOMALY_PROMPT : string :=
  "Describe what you see in this image and Be more specific about the objects, person, color of any objects it can be cars, person shirt".

Definition ALERT_KEYWORDS : list string :=
  [ "intruder"; "fire"; "smoke"; "fallen"; "violence"; "theft"; "suspicious";
    "danger"; "emergency"; "unusual"; "abnormal"; "alert"; "warning"; "person";
    "breaking"; "weapon"; "fight"; "accident" ].

End config.

(* ===================================================================== *)
(** ** Exceptions and the classifier client *)

(** An instance of a subclass of [Exception]; [str_of] is [str(e)]. *)
Record PyException : Type := Exception { str_of : string }.

Inductive Outcome (A : Type) : Type :=
| Returns (a : A)
| Raises (e : PyException).
Arguments Returns {A} a.
Arguments Raises {A} e.

(** Normalised box returned by the person detector. *)
Record BoundingBox : Type := {
x_min : Q; y_min : Q; x_max : Q; y_max : Q
}.

(** The [dict] returned by [model.detect]; only the ["objects"] key is
  read, and it may be absent ([None]).  [{}] is [empty_dict]. *)
Record DetectionDict : Type := { objects : option (list BoundingBox) }.

Definition empty_dict : DetectionDict := {| objects := None |}.

(** [d.get("objects", [])]. *)
Definition get_objects (d : DetectionDict) : list BoundingBox :=
match objects d with
| Some l => l
| None => []
end.

(** [moondream_client.MoondreamClient], seen from its callers: each
  method either returns or raises. *)
Record MoondreamClient (Frame : Type) : Type := {
analyze_frame : Frame -> string -> Outcome string;
detect_objects : Frame -> Outcome DetectionDict
}.
Arguments analyze_frame {Frame} _ _ _.
Arguments detect_objects {Frame} _ _.

(** Calls made on the client, in order. *)
Inductive ClientCall (Frame : Type) : Type :=
| Call_analyze_frame (frame : Frame) (prompt : string)
| Call_detect_objects (frame : Frame).
Arguments Call_analyze_frame {Frame} frame prompt.
Arguments Call_detect_objects {Frame} frame.

Definition is_detect_call {Frame} (c : ClientCall Frame) : bool :=
match c with
| Call_detect_objects _ => true
| Call_analyze_frame _ _ => false
end.

(** Computations that may raise and that log their client calls. *)
Module Py.
Section Monad.
Context {Frame : Type}.

Definition t (A : Type) : Type :=
  list (ClientCall Frame) -> Outcome A * list (ClientCall Frame).

Definition ret {A} (a : A) : t A := fun log => (Returns a, log).

Definition bind {A B} (m : t A) (k : A -> t B) : t B :=
  fun log =>
    match m log with
    | (Returns a, log') => k a log'
    | (Raises e, log') => (Raises e, log')
    end.

(** [try: body except Exception as e: handler(e)]. *)
Definition try_except {A} (body : t A) (handler : PyException -> t A) : t A :=
  fun log =>
    match body log with
    | (Returns a, log') => (Returns a, log')
    | (Raises e, log') => handler e log'
    end.

Definition call_analyze_frame (client : MoondreamClient Frame)
    (frame : Frame) (prompt : string) : t string :=
  fun log => (analyze_frame client frame prompt,
              (log ++ [Call_analyze_frame frame prompt])%list).

Definition call_detect_objects (client : MoondreamClient Frame)
    (frame : Frame) : t DetectionDict :=
  fun log => (detect_objects client frame,
              (log ++ [Call_detect_objects frame])%list).

(** Run from an empty call log. *)
Definition run {A} (m : t A) : Outcome A * list (ClientCall Frame) := m [].

End Monad.
End Py.

Declare Scope py_scope.
Delimit Scope py_scope with py.
Notation "x <- m ;; k" := (Py.bind m (fun x => k))
(at level 61, m at next level, right associativity) : py_scope.
Notation "' pat <- m ;; k" := (Py.bind m (fun x => match x with pat => k end))
(at level 61, pat pattern, m at next level, right associativity) : py_scope.

(* ===================================================================== *)
(** ** anomaly_detector.py *)

(** The [dict] returned by [AnomalyDetector.analyze].  The error branch
  builds it without the ['detection_result'] key ([None]). *)
Record AnalysisResult : Type := {
timestamp : Q;
description : string;
is_anomaly : bool;
confidence : string;
persons_detected : bool;
detected_objects : list BoundingBox;
detection_result : option DetectionDict
}.

Record AnomalyDetector (Frame : Type) : Type := {
client : MoondreamClient Frame;
prompt : string;
alert_keywords : list string
}.
Arguments client {Frame} _.
Arguments prompt {Frame} _.
Arguments alert_keywords {Frame} _.

Module AnomalyDetectorImpl.
Section Detector.
Context {Frame : Type}.
Import PyStr.

(** [AnomalyDetector.__init__]. *)
Definition __init__ (moondream_client : MoondreamClient Frame)
  : AnomalyDetector Frame :=
  {| client := moondream_client;
     prompt := config.ANOMALY_PROMPT;
     alert_keywords := map lower config.ALERT_KEYWORDS |}.

Definition human_words : list string :=
  [ "man"; "woman"; "person"; "people"; "human"; "individual"; "male";
    "female"; "guy"; "lady"; "gentleman"; "boy"; "girl"; "child"; "adult" ].

Definition negation_phrases : list string :=
  [ "no anomaly"; "nothing unusual"; "appears normal";
    "everything looks normal" ].

(** [any(word in desc_lower for word in human_words)]. *)
Definition human_found (desc_lower : string) : bool :=
  existsb (fun word => contains word desc_lower) human_words.

(** The value of [desc_lower] once lines 80-90 of [_check_for_anomaly]
    have run: the text the phrases and keywords are searched in. *)
Definition matching_text (description : string) : string :=
  let desc_lower := lower description in
  if human_found desc_lower && negb (contains "person" desc_lower)
  then desc_lower ++ " person"
  else desc_lower.

(** [AnomalyDetector._check_for_anomaly]. *)
Definition _check_for_anomaly (self : AnomalyDetector Frame)
    (description : string) : bool :=
  let desc_lower := matching_text description in
  if contains "no anomaly" desc_lower || contains "nothing unusual" desc_lower
  then false
  else if contains "appears normal" desc_lower
          || contains "everything looks normal" desc_lower
  then false
  else existsb (fun keyword => contains keyword desc_lower)
               (alert_keywords self).

Local Open Scope py_scope.

(** [AnomalyDetector.analyze]; [timestamp] is the value read from
    [datetime.now()] on entry. *)
Definition analyze (self : AnomalyDetector Frame) (timestamp : Q)
    (frame : Frame) : Py.t AnalysisResult :=
  Py.try_except
    (description <- Py.call_analyze_frame (client self) frame (prompt self) ;;
     let keywords_found := _check_for_anomaly self description in
     '(detection_result, detected_objects, person_detected, description) <-
       (if keywords_found then
          detection_result <- Py.call_detect_objects (client self) frame ;;
          let detected_objects := get_objects detection_result in
          let person_detected := (0 <? List.length detected_objects)%nat in
          let description :=
            if person_detected
            then description ++ " [PERSON DETECTED: "
                   ++ str_of_nat (List.length detected_objects)
                   ++ " person(s) found]"
            else description in
          Py.ret (detection_result, detected_objects, person_detected,
                  description)
        else Py.ret (empty_dict, [], false, description)) ;;
     let is_anomaly := keywords_found && person_detected in
     Py.ret {| timestamp := timestamp;
               description := description;
               is_anomaly := is_anomaly;
               confidence := if is_anomaly then "high" else "normal";
               persons_detected := person_detected;
               detected_objects := detected_objects;
               detection_result := Some detection_result |})
    (fun e =>
       Py.ret {| timestamp := timestamp;
                 description := "Error: " ++ str_of e;
                 is_anomaly := false;
                 confidence := "error";
                 persons_detected := false;
                 detected_objects := [];
                 detection_result := None |}).

End Detector.
End AnomalyDetectorImpl.

(* ===================================================================== *)
(** ** OpenCV, as far as the motion gate uses it *)

Module cv2.

(** A single-channel 8-bit image: rows of pixel intensities. *)
Definition gray : Type := list (list Z).

(** [cv2.absdiff(a, b)] on two images of one shape: pixel-wise [|a - b|].
    Both arguments always come from frames of the same capture device. *)
Definition absdiff (a b : gray) : gray :=
  map (fun rows => map (fun px => Z.abs (fst px - snd px))
                       (combine (fst rows) (snd rows)))
      (combine a b).

(** [cv2.threshold(src, thresh, maxval, cv2.THRESH_BINARY)[1]]. *)
Definition threshold (src : gray) (thresh maxval : Z) : gray :=
  map (map (fun px => if (thresh <? px)%Z then maxval else 0%Z)) src.

(** No pixel of the image is set. *)
Definition blank (img : gray) : Prop :=
  Forall (Forall (fun px => px = 0%Z)) img.

End cv2.

(** The OpenCV functions that are taken as given: colour conversion and
    contour extraction.  [Frame] is a captured BGR image, [Contour] a
    contour as returned by [cv2.findContours]. *)
Class OpenCV (Frame Contour : Type) : Type := {
  (** [cv2.cvtColor(frame, cv2.COLOR_BGR2GRAY)] *)
  cvtColor_BGR2GRAY : Frame -> cv2.gray;
  (** [cv2.findContours(img, cv2.RETR_EXTERNAL, cv2.CHAIN_APPROX_SIMPLE)[0]] *)
  findContours : cv2.gray -> list Contour;
  (** [cv2.contourArea(contour)] *)
  contourArea : Contour -> Q
}.

(** Values [config.py] reads from the process environment. *)
Class Config : Type := {
  FRAME_INTERVAL : Q;
  CAMERA_INDEX : Z
}.

(* ===================================================================== *)
(** ** queue.Queue *)

Module Queue.
Section Queue.
Context {A : Type}.

Record t : Type := { maxsize : Z; queue : list A }.

(** [Queue(maxsize=n)]. *)
Definition create (n : Z) : t := {| maxsize := n; queue := [] |}.

Definition qsize (q : t) : nat := List.length (queue q).

(** [q.full()]: a [maxsize <= 0] queue is never full. *)
Definition full (q : t) : bool :=
  (0 <? maxsize q)%Z && (maxsize q <=? Z.of_nat (qsize q))%Z.

(** [q.put_nowait(item)]; [None] stands for raising [queue.Full]. *)
Definition put_nowait (q : t) (item : A) : option t :=
  if full q then None
  else Some {| maxsize := maxsize q; queue := (queue q ++ [item])%list |}.

(** [q.get(timeout=...)]; [None] stands for raising [queue.Empty] once
    the timeout has passed on an empty queue. *)
Definition get (q : t) : option (A * t) :=
  match queue q with
  | [] => None
  | item :: rest => Some (item, {| maxsize := maxsize q; queue := rest |})
  end.

End Queue.
Arguments t A : clear implicits.
End Queue.

(* ===================================================================== *)
(** ** camera.py *)

(** A [cv2.VideoCapture] handle. *)
Record VideoCapture : Type := { isOpened : bool }.

Record Camera : Type := { camera_index : Z; cap : option VideoCapture }.

Module CameraImpl.

(** [Camera.__init__]. *)
Definition __init__ `{Config} (camera_index : option Z) : Camera :=
  {| camera_index := match camera_index with
                     | Some i => i
                     | None => CAMERA_INDEX
                     end;
     cap := None |}.

(** [Camera.start]; [device_opens] tells whether the device could be
    opened by [cv2.VideoCapture(index)]. *)
Definition start (self : Camera) (device_opens : bool) : bool * Camera :=
  let handle := {| isOpened := device_opens |} in
  let self := {| camera_index := camera_index self; cap := Some handle |} in
  if negb (isOpened handle) then (false, self) else (true, self).

(** [Camera.capture_frame]; [read] is what [cap.read()] delivers, [None]
    when its [ret] flag is false. *)
Definition capture_frame {Frame} (self : Camera) (read : option Frame)
  : option Frame :=
  match cap self with
  | None => None
  | Some c => if negb (isOpened c) then None else read
  end.

(** [Camera.stop]. *)
Definition stop (self : Camera) : Camera :=
  match cap self with
  | Some _ => {| camera_index := camera_index self;
                 cap := Some {| isOpened := false |} |}
  | None => self
  end.

End CameraImpl.

(* ===================================================================== *)
(** ** surveillance.py *)

(** Records emitted through [logger] by [SurveillanceSystem]
    (level INFO and above). *)
Inductive LogRecord : Type :=
| Log_starting                       (** "Starting surveillance system..." *)
| Log_camera_failed                  (** "Failed to start camera" *)
| Log_active                         (** "Surveillance active. ..." *)
| Log_queued (n : Z) (t : Q)         (** "Motion detected! Queued frame #n", at time [t] *)
| Log_queue_full                     (** "Analysis queue full, skipping frame" *)
| Log_worker_started                 (** "Analysis worker thread started" *)
| Log_analysis_complete              (** "Analysis complete: ..." *)
| Log_signal                         (** "Shutdown signal received" *)
| Log_stopping.                      (** "Stopping surveillance system..." *)

(** The frames and results handed to [AlertHandler.handle_alert]. *)
Record AlertHandler (Frame : Type) : Type := {
  alerts : list (Frame * AnalysisResult)
}.
Arguments alerts {Frame} _.

(** A [threading.Thread] object. *)
Inductive Thread : Type := Thread_created | Thread_started.

Record SurveillanceSystem (Frame : Type) : Type := {
  camera : Camera;
  detector : AnomalyDetector Frame;
  alert_handler : AlertHandler Frame;
  show_preview : bool;
  running : bool;
  frame_count : Z;
  anomaly_count : Z;
  analysis_queue : Queue.t (Frame * Q);
  analysis_thread : option Thread;
  last_analysis_time : Q;
  previous_frame : option cv2.gray;
  motion_threshold : Z;
  min_motion_area : Z;
  motion_frames_skipped : Z;
  log : list LogRecord
}.
Arguments camera {Frame} _.
Arguments detector {Frame} _.
Arguments alert_handler {Frame} _.
Arguments show_preview {Frame} _.
Arguments running {Frame} _.
Arguments frame_count {Frame} _.
Arguments anomaly_count {Frame} _.
Arguments analysis_queue {Frame} _.
Arguments analysis_thread {Frame} _.
Arguments last_analysis_time {Frame} _.
Arguments previous_frame {Frame} _.
Arguments motion_threshold {Frame} _.
Arguments min_motion_area {Frame} _.
Arguments motion_frames_skipped {Frame} _.
Arguments log {Frame} _.

(** Attribute assignment [self.<field> = v], one function per assigned field. *)
Section Assign.
Context {Frame : Type}.
Implicit Type self : SurveillanceSystem Frame.

Definition set_camera (v : Camera) self
  : SurveillanceSystem Frame :=
  {| camera := v; detector := detector self;
     alert_handler := alert_handler self;
     show_preview := show_preview self; running := running self;
     frame_count := frame_count self; anomaly_count := anomaly_count self;
     analysis_queue := analysis_queue self;
     analysis_thread := analysis_thread self;
     last_analysis_time := last_analysis_time self;
     previous_frame := previous_frame self;
     motion_threshold := motion_threshold self;
     min_motion_area := min_motion_area self;
     motion_frames_skipped := motion_frames_skipped self;
     log := log self |}.

Definition set_alert_handler (v : AlertHandler Frame) self
  : SurveillanceSystem Frame :=
  {| camera := camera self; detector := detector self; alert_handler := v;
     show_preview := show_preview self; running := running self;
     frame_count := frame_count self; anomaly_count := anomaly_count self;
     analysis_queue := analysis_queue self;
     analysis_thread := analysis_thread self;
     last_analysis_time := last_analysis_time self;
     previous_frame := previous_frame self;
     motion_threshold := motion_threshold self;
     min_motion_area := min_motion_area self;
     motion_frames_skipped := motion_frames_skipped self;
     log := log self |}.

Definition set_running (v : bool) self
  : SurveillanceSystem Frame :=
  {| camera := camera self; detector := detector self;
     alert_handler := alert_handler self;
     show_preview := show_preview self; running := v;
     frame_count := frame_count self; anomaly_count := anomaly_count self;
     analysis_queue := analysis_queue self;
     analysis_thread := analysis_thread self;
     last_analysis_time := last_analysis_time self;
     previous_frame := previous_frame self;
     motion_threshold := motion_threshold self;
     min_motion_area := min_motion_area self;
     motion_frames_skipped := motion_frames_skipped self;
     log := log self |}.

Definition set_frame_count (v : Z) self
  : SurveillanceSystem Frame :=
  {| camera := camera self; detector := detector self;
     alert_handler := alert_handler self;
     show_preview := show_preview self; running := running self;
     frame_count := v; anomaly_count := anomaly_count self;
     analysis_queue := analysis_queue self;
     analysis_thread := analysis_thread self;
     last_analysis_time := last_analysis_time self;
     previous_frame := previous_frame self;
     motion_threshold := motion_threshold self;
     min_motion_area := min_motion_area self;
     motion_frames_skipped := motion_frames_skipped self;
     log := log self |}.

Definition set_anomaly_count (v : Z) self
  : SurveillanceSystem Frame :=
  {| camera := camera self; detector := detector self;
     alert_handler := alert_handler self;
     show_preview := show_preview self; running := running self;
     frame_count := frame_count self; anomaly_count := v;
     analysis_queue := analysis_queue self;
     analysis_thread := analysis_thread self;
     last_analysis_time := last_analysis_time self;
     previous_frame := previous_frame self;
     motion_threshold := motion_threshold self;
     min_motion_area := min_motion_area self;
     motion_frames_skipped := motion_frames_skipped self;
     log := log self |}.

Definition set_analysis_queue (v : Queue.t (Frame * Q)) self
  : SurveillanceSystem Frame :=
  {| camera := camera self; detector := detector self;
     alert_handler := alert_handler self;
     show_preview := show_preview self; running := running self;
     frame_count := frame_count self; anomaly_count := anomaly_count self;
     analysis_queue := v; analysis_thread := analysis_thread self;
     last_analysis_time := last_analysis_time self;
     previous_frame := previous_frame self;
     motion_threshold := motion_threshold self;
     min_motion_area := min_motion_area self;
     motion_frames_skipped := motion_frames_skipped self;
     log := log self |}.

Definition set_analysis_thread (v : option Thread) self
  : SurveillanceSystem Frame :=
  {| camera := camera self; detector := detector self;
     alert_handler := alert_handler self;
     show_preview := show_preview self; running := running self;
     frame_count := frame_count self; anomaly_count := anomaly_count self;
     analysis_queue := analysis_queue self; analysis_thread := v;
     last_analysis_time := last_analysis_time self;
     previous_frame := previous_frame self;
     motion_threshold := motion_threshold self;
     min_motion_area := min_motion_area self;
     motion_frames_skipped := motion_frames_skipped self;
     log := log self |}.

Definition set_last_analysis_time (v : Q) self
  : SurveillanceSystem Frame :=
  {| camera := camera self; detector := detector self;
     alert_handler := alert_handler self;
     show_preview := show_preview self; running := running self;
     frame_count := frame_count self; anomaly_count := anomaly_count self;
     analysis_queue := analysis_queue self;
     analysis_thread := analysis_thread self; last_analysis_time := v;
     previous_frame := previous_frame self;
     motion_threshold := motion_threshold self;
     min_motion_area := min_motion_area self;
     motion_frames_skipped := motion_frames_skipped self;
     log := log self |}.

Definition set_previous_frame (v : option cv2.gray) self
  : SurveillanceSystem Frame :=
  {| camera := camera self; detector := detector self;
     alert_handler := alert_handler self;
     show_preview := show_preview self; running := running self;
     frame_count := frame_count self; anomaly_count := anomaly_count self;
     analysis_queue := analysis_queue self;
     analysis_thread := analysis_thread self;
     last_analysis_time := last_analysis_time self; previous_frame := v;
     motion_threshold := motion_threshold self;
     min_motion_area := min_motion_area self;
     motion_frames_skipped := motion_frames_skipped self;
     log := log self |}.

Definition set_motion_frames_skipped (v : Z) self
  : SurveillanceSystem Frame :=
  {| camera := camera self; detector := detector self;
     alert_handler := alert_handler self;
     show_preview := show_preview self; running := running self;
     frame_count := frame_count self; anomaly_count := anomaly_count self;
     analysis_queue := analysis_queue self;
     analysis_thread := analysis_thread self;
     last_analysis_time := last_analysis_time self;
     previous_frame := previous_frame self;
     motion_threshold := motion_threshold self;
     min_motion_area := min_motion_area self; motion_frames_skipped := v;
     log := log self |}.

Definition set_log (v : list LogRecord) self
  : SurveillanceSystem Frame :=
  {| camera := camera self; detector := detector self;
     alert_handler := alert_handler self;
     show_preview := show_preview self; running := running self;
     frame_count := frame_count self; anomaly_count := anomaly_count self;
     analysis_queue := analysis_queue self;
     analysis_thread := analysis_thread self;
     last_analysis_time := last_analysis_time self;
     previous_frame := previous_frame self;
     motion_threshold := motion_threshold self;
     min_motion_area := min_motion_area self;
     motion_frames_skipped := motion_frames_skipped self; log := v |}.

End Assign.

(** What one pass through the capture loop receives from outside. *)
Record LoopInput (Frame : Type) : Type := {
  read : option Frame;   (** what [cap.read()] delivers *)
  current_time : Q;      (** [time.time()] *)
  key_q : bool           (** [cv2.waitKey(1) & 0xFF == ord('q')] *)
}.
Arguments read {Frame} _.
Arguments current_time {Frame} _.
Arguments key_q {Frame} _.

(** What can happen next while the system runs: a pass of the capture
    loop, a pass of the worker loop (with the value of [datetime.now()]
    it reads), or the delivery of SIGINT/SIGTERM. *)
Inductive Action (Frame : Type) : Type :=
| Capture (i : LoopInput Frame)
| Worker (timestamp : Q)
| Signal.
Arguments Capture {Frame} i.
Arguments Worker {Frame} timestamp.
Arguments Signal {Frame}.

Module SurveillanceSystemImpl.
Section System.
Context {Frame Contour : Type} {cv : OpenCV Frame Contour} {cfg : Config}.

Definition State : Type := SurveillanceSystem Frame.

(** [SurveillanceSystem.__init__]; the client it builds is passed in. *)
Definition __init__ (moondream : MoondreamClient Frame)
    (camera_index : option Z) (show_preview : bool) : State :=
  {| camera := CameraImpl.__init__ camera_index;
     detector := AnomalyDetectorImpl.__init__ moondream;
     alert_handler := {| alerts := [] |};
     show_preview := show_preview;
     running := false;
     frame_count := 0;
     anomaly_count := 0;
     analysis_queue := Queue.create 10;
     analysis_thread := None;
     last_analysis_time := 0;
     previous_frame := None;
     motion_threshold := 25;
     min_motion_area := 500;
     motion_frames_skipped := 0;
     log := [] |}.

Definition logger (r : LogRecord) (self : State) : State :=
  set_log (log self ++ [r])%list self.

(** [sum(cv2.contourArea(contour) for contour in contours)]. *)
Definition total_area (contours : list Contour) : Q :=
  fold_left (fun acc contour => acc + contourArea contour) contours 0.

(** [SurveillanceSystem._detect_motion]: the verdict and the new state. *)
Definition _detect_motion (self : State) (frame : Frame) : bool * State :=
  match previous_frame self with
  | None =>
      (true, set_previous_frame (Some (cvtColor_BGR2GRAY frame)) self)
  | Some previous =>
      let current_gray := cvtColor_BGR2GRAY frame in
      let diff := cv2.absdiff previous current_gray in
      let thresh := cv2.threshold diff (motion_threshold self) 255 in
      let contours := findContours thresh in
      let motion_area := total_area contours in
      let self := set_previous_frame (Some current_gray) self in
      (negb (Qle_bool motion_area (inject_Z (min_motion_area self))), self)
  end.

(** The condition of line 119:
    [has_motion and current_time - self.last_analysis_time >= FRAME_INTERVAL]. *)
Definition should_queue (self : State) (has_motion : bool) (current_time : Q)
  : bool :=
  has_motion && Qle_bool FRAME_INTERVAL (current_time - last_analysis_time self).

(** Lines 120-129: the [try] around [put_nowait] and its bare [except]. *)
Definition try_queue (self : State) (frame : Frame) (current_time : Q) : State :=
  match Queue.put_nowait (analysis_queue self) (frame, current_time) with
  | Some q =>
      let self := set_analysis_queue q self in
      let self := set_last_analysis_time current_time self in
      let self := set_frame_count (frame_count self + 1) self in
      let self := logger (Log_queued (frame_count self) current_time) self in
      set_motion_frames_skipped 0 self
  | None => logger Log_queue_full self
  end.

(** The body of the [while self.running] loop of [_run_loop]. *)
Definition _run_loop_body (self : State) (i : LoopInput Frame) : State :=
  match CameraImpl.capture_frame (camera self) (read i) with
  | None => self
  | Some frame =>
      let current_time := current_time i in
      let '(has_motion, self) := _detect_motion self frame in
      let self :=
        if should_queue self has_motion current_time
        then try_queue self frame current_time
        else if negb has_motion
        then set_motion_frames_skipped (motion_frames_skipped self + 1) self
        else self in
      if show_preview self
      then if key_q i then set_running false self else self
      else self
  end.

(** [AlertHandler.handle_alert], reduced to recording what it was given. *)
Definition handle_alert (h : AlertHandler Frame) (frame : Frame)
    (result : AnalysisResult) : AlertHandler Frame :=
  {| alerts := (alerts h ++ [(frame, result)])%list |}.

(** The body of the [while self.running] loop of [_analysis_worker]. *)
Definition _analysis_worker_body (self : State) (timestamp : Q) : State :=
  match Queue.get (analysis_queue self) with
  | None => self
  | Some (task, q) =>
      let frame := fst task in
      let self := set_analysis_queue q self in
      match fst (Py.run (AnomalyDetectorImpl.analyze (detector self) timestamp frame)) with
      | Returns result =>
          if is_anomaly result
          then
            let self := set_anomaly_count (anomaly_count self + 1) self in
            set_alert_handler (handle_alert (alert_handler self) frame result) self
          else logger Log_analysis_complete self
      | Raises _ => self
      end
  end.

(** [SurveillanceSystem._signal_handler]. *)
Definition _signal_handler (self : State) : State :=
  set_running false (logger Log_signal self).

(** One action of the running system.  Both loops test [self.running]
    before each pass; the worker exists only once its thread is started. *)
Definition step (self : State) (a : Action Frame) : State :=
  match a with
  | Capture i => if running self then _run_loop_body self i else self
  | Worker timestamp =>
      match analysis_thread self with
      | Some Thread_started =>
          if running self then _analysis_worker_body self timestamp else self
      | _ => self
      end
  | Signal => _signal_handler self
  end.

(** A finite schedule of actions, in the order in which they take effect. *)
Definition exec (schedule : list (Action Frame)) (self : State) : State :=
  fold_left step schedule self.

(** [SurveillanceSystem.stop]. *)
Definition stop (self : State) : State :=
  let self := logger Log_stopping self in
  let self := set_running false self in
  set_camera (CameraImpl.stop (camera self)) self.

(** [SurveillanceSystem.start]; [schedule] is what happens between the
    entry into [_run_loop] and the [finally] clause. *)
Definition start (device_opens : bool) (schedule : list (Action Frame))
    (self : State) : State :=
  let self := logger Log_starting self in
  let '(ok, cam) := CameraImpl.start (camera self) device_opens in
  let self := set_camera cam self in
  if negb ok
  then logger Log_camera_failed self
  else
    let self := set_running true self in
    let self := set_analysis_thread (Some Thread_started) self in
    let self := logger Log_active self in
    let self := exec schedule self in
    stop self.

(** Tasks submitted back to back, with no worker pass in between. *)
Definition submit_all (tasks : list (Frame * Q)) (self : State) : State :=
  fold_left (fun self task => try_queue self (fst task) (snd task)) tasks self.

(** The queue is the one built by [__init__] and holds at most its
    ten tasks. *)
Definition within_capacity (self : State) : Prop :=
  Queue.maxsize (analysis_queue self) = 10%Z /\
  (Queue.qsize (analysis_queue self) <= 10)%nat.

(** The readings of [time.time()] along a schedule. *)
Definition clock (schedule : list (Action Frame)) : list Q :=
  flat_map (fun a => match a with
                     | Capture i => [current_time i]
                     | _ => []
                     end) schedule.

End System.

(** The times at which a frame was queued, as the log shows them. *)
Fixpoint queued_times (l : list LogRecord) : list Q :=
  match l with
  | [] => []
  | Log_queued _ t :: l' => t :: queued_times l'
  | _ :: l' => queued_times l'
  end.

End SurveillanceSystemImpl.

(* ===================================================================== *)
(** ** A concrete environment for running the model

    Frames are taken already single-channel, and the contour extractor
    is replaced by a stand-in that reports, for every image row holding
    set pixels, one region whose area is the number of those pixels.
    The runs below only use uniform 30 x 30 frames: between two of
    different intensity the stand-in measures 900, where OpenCV finds
    the one rectangular contour of area 29 * 29 = 841, and between two
    equal ones both find nothing; the verdicts agree. *)

Module Demo.

Definition Frame : Type := cv2.gray.

(** A 30 x 30 frame of uniform intensity [v]. *)
Definition solid (v : Z) : Frame := repeat (repeat v 30%nat) 30%nat.

Definition row_regions (img : cv2.gray) : list Z :=
  filter (fun n => (0 <? n)%Z)
         (map (fun row =>
                 Z.of_nat (List.length (filter (fun px => negb (px =? 0)%Z) row)))
              img).

#[global] Instance cv : OpenCV Frame Z :=
  {| cvtColor_BGR2GRAY := fun frame => frame;
     findContours := row_regions;
     contourArea := inject_Z |}.

#[global] Instance cfg : Config :=
  {| FRAME_INTERVAL := 2; CAMERA_INDEX := 0 |}.

Definition box : BoundingBox :=
  {| x_min := 1 # 4; y_min := 1 # 4; x_max := 3 # 4; y_max := 3 # 4 |}.

(** A classifier that answers [text] and locates [n] persons. *)
Definition moondream (text : string) (n : nat) : MoondreamClient Frame :=
  {| analyze_frame := fun _ _ => Returns text;
     detect_objects := fun _ => Returns {| objects := Some (repeat box n) |} |}.

(** A classifier whose description call fails. *)
Definition broken : MoondreamClient Frame :=
  {| analyze_frame := fun _ _ => Raises (Exception "connection refused");
     detect_objects := fun _ => Returns empty_dict |}.

Definition system : SurveillanceSystem Frame :=
  SurveillanceSystemImpl.__init__ (moondream "a quiet street" 0) (Some 0%Z) false.

(** The state [start] hands to the capture loop once the camera opened. *)
Definition live : SurveillanceSystem Frame :=
  SurveillanceSystemImpl.logger Log_active
    (set_analysis_thread (Some Thread_started)
       (set_running true
          (set_camera {| camera_index := 0; cap := Some {| isOpened := true |} |}
             (SurveillanceSystemImpl.logger Log_starting system)))).

(** A pass of the capture loop at second [t] that reads the frame [solid v]. *)
Definition pass (v : Z) (t : Z) : Action Frame :=
  Capture {| read := Some (solid v); current_time := inject_Z t; key_q := false |}.

(** Ten passes, three seconds apart, each differing from the one before. *)
Definition fill_queue : list (Action Frame) :=
  [ pass 0 1000; pass 200 1003; pass 0 1006; pass 200 1009; pass 0 1012;
    pass 200 1015; pass 0 1018; pass 200 1021; pass 0 1024; pass 200 1027 ].

End Demo.

(* ===================================================================== *)
(** ** camera.py, alert_handler.py and surveillance.py: remaining parts *)

Module CameraContext.

(** [Camera.__enter__]: starts the camera, whether or not it opens, and
    hands back the camera itself. *)
Definition __enter__ (self : Camera) (device_opens : bool) : Camera :=
  snd (CameraImpl.start self device_opens).

(** [Camera.__exit__]. *)
Definition __exit__ (self : Camera) : Camera := CameraImpl.stop self.

End CameraContext.

Module PyList.

(** The slice [l[start:]] of a Python list: a negative [start] counts
    from the end, and out-of-range values are clamped. *)
Definition slice_from {A : Type} (start : Z) (l : list A) : list A :=
  let len := Z.of_nat (List.length l) in
  let start := if (start <? 0)%Z
               then Z.max 0 (start + len)
               else Z.min start len in
  skipn (Z.to_nat start) l.

End PyList.

Module AlertHandlerImpl.

(** [AlertHandler.get_recent_alerts]: [self.alerts[-count:]]. *)
Definition get_recent_alerts {Frame : Type} (self : AlertHandler Frame)
    (count : Z) : list (Frame * AnalysisResult) :=
  PyList.slice_from (- count) (alerts self).

Section Files.
Context {A : Type}.

(** What a file may hold, as [json.load] sees it: a JSON array (of
    entries of type [A]), another JSON value (of the Python type named),
    or something that cannot be read or parsed. *)
Inductive FileContent : Type :=
| Json_list (entries : list A)
| Json_other (type_name : string)
| Unreadable.

(** The files by path; [None] where [os.path.exists] is false. *)
Definition FileSystem : Type := string -> option FileContent.

(** [open(path, 'w')] followed by [json.dump(content, f)]. *)
Definition dump (fs : FileSystem) (path : string) (content : FileContent)
  : FileSystem :=
  fun p => if String.eqb p path then Some content else fs p.

(** [AlertHandler._append_to_json]: the file system afterwards, or the
    [AttributeError] of [alerts.append] on a value that is not a list. *)
Definition _append_to_json (fs : FileSystem) (filepath : string) (alert : A)
  : Outcome FileSystem :=
  let loaded :=
    match fs filepath with
    | None => Json_list []
    | Some Unreadable => Json_list []
    | Some content => content
    end in
  match loaded with
  | Json_list alerts =>
      Returns (dump fs filepath (Json_list (alerts ++ [alert])%list))
  | Json_other type_name =>
      Raises (Exception ("'" ++ type_name
                           ++ "' object has no attribute 'append'"))
  | Unreadable => Returns (dump fs filepath (Json_list [alert]))
  end.

(** Appending several entries in turn, stopping at the first failure. *)
Fixpoint append_all (fs : FileSystem) (filepath : string) (new : list A)
  : Outcome FileSystem :=
  match new with
  | [] => Returns fs
  | alert :: rest =>
      match _append_to_json fs filepath alert with
      | Returns fs' => append_all fs' filepath rest
      | Raises e => Raises e
      end
  end.

End Files.
Arguments FileContent A : clear implicits.
Arguments FileSystem A : clear implicits.

End AlertHandlerImpl.

Module Main.

(** The namespace [argparse] returns. *)
Record Args : Type := {
  args_camera : Z;
  args_no_preview : bool;
  args_interval : option Q
}.

(** The two places the interval lives in once [surveillance.py] has run
    [from config import FRAME_INTERVAL]: the attribute of the module
    [config], and the global name of the module [surveillance], which is
    the one [_run_loop] and [start] read. *)
Record Globals : Type := {
  config_FRAME_INTERVAL : Q;
  surveillance_FRAME_INTERVAL : Q
}.

(** Both names right after the imports, [interval] being the value of
    [float(os.getenv("FRAME_INTERVAL", 2))]. *)
Definition imported (interval : Q) : Globals :=
  {| config_FRAME_INTERVAL := interval;
     surveillance_FRAME_INTERVAL := interval |}.

(** Truth value of a [float]. *)
Definition truthy (x : Q) : bool := negb (Qeq_bool x 0).

Section Main.
Context {Frame Contour : Type} {cv : OpenCV Frame Contour}.

(** [main]; [camera_index_env] is [config.CAMERA_INDEX], [new_client]
    the outcome of [MoondreamClient()], and the rest is as for [start]. *)
Definition main (args : Args) (g : Globals) (camera_index_env : Z)
    (new_client : Outcome (MoondreamClient Frame)) (device_opens : bool)
    (schedule : list (Action Frame))
  : Globals * Outcome (SurveillanceSystem Frame) :=
  let g :=
    match args_interval args with
    | Some x =>
        if truthy x
        then {| config_FRAME_INTERVAL := x;
                surveillance_FRAME_INTERVAL := surveillance_FRAME_INTERVAL g |}
        else g
    | None => g
    end in
  let cfg := {| FRAME_INTERVAL := surveillance_FRAME_INTERVAL g;
                CAMERA_INDEX := camera_index_env |} in
  match new_client with
  | Raises e => (g, Raises e)
  | Returns moondream =>
      let system :=
        SurveillanceSystemImpl.__init__ (cfg := cfg) moondream
          (Some (args_camera args)) (negb (args_no_preview args)) in
      (g, Returns (SurveillanceSystemImpl.start (cfg := cfg)
                     device_opens schedule system))
  end.

End Main.
End Main.

(** The outcomes of [AnomalyDetector.analyze], for stating its properties. *)
Section AnalyzeOutcomes.
Context {Frame : Type}.
Import PyStr AnomalyDetectorImpl.

(** The [dict] its [except] branch returns. *)
Definition error_result (ts : Q) (e : PyException) : AnalysisResult :=
  {| timestamp := ts; description := "Error: " ++ str_of e;
     is_anomaly := false; confidence := "error"; persons_detected := false;
     detected_objects := []; detection_result := None |}.

(** The four ways a call of [analyze] can go. *)
Inductive analyze_case (self : AnomalyDetector Frame) (ts : Q) (frame : Frame)
  : Outcome AnalysisResult * list (ClientCall Frame) -> Prop :=
| Case_description_fails e :
    analyze_frame (client self) frame (prompt self) = Raises e ->
    analyze_case self ts frame
      (Returns (error_result ts e), [Call_analyze_frame frame (prompt self)])
| Case_gate_closed d :
    analyze_frame (client self) frame (prompt self) = Returns d ->
    _check_for_anomaly self d = false ->
    analyze_case self ts frame
      (Returns {| timestamp := ts; description := d; is_anomaly := false;
                  confidence := "normal"; persons_detected := false;
                  detected_objects := [];
                  detection_result := Some empty_dict |},
       [Call_analyze_frame frame (prompt self)])
| Case_detect_fails d e :
    analyze_frame (client self) frame (prompt self) = Returns d ->
    _check_for_anomaly self d = true ->
    detect_objects (client self) frame = Raises e ->
    analyze_case self ts frame
      (Returns (error_result ts e),
       [Call_analyze_frame frame (prompt self); Call_detect_objects frame])
| Case_detect_returns d dr :
    analyze_frame (client self) frame (prompt self) = Returns d ->
    _check_for_anomaly self d = true ->
    detect_objects (client self) frame = Returns dr ->
    analyze_case self ts frame
      (Returns {| timestamp := ts;
                  description :=
                    if (0 <? List.length (get_objects dr))%nat
                    then d ++ " [PERSON DETECTED: "
                           ++ str_of_nat (List.length (get_objects dr))
                           ++ " person(s) found]"
                    else d;
                  is_anomaly := (0 <? List.length (get_objects dr))%nat;
                  confidence := if (0 <? List.length (get_objects dr))%nat
                                then "high" else "normal";
                  persons_detected := (0 <? List.length (get_objects dr))%nat;
                  detected_objects := get_objects dr;
                  detection_result := Some dr |},
       [Call_analyze_frame frame (prompt self); Call_detect_objects frame]).

End AnalyzeOutcomes.

(** Further concrete values for running the model. *)
Module DemoMore.

(** A classifier that answers [text] but whose localisation call fails. *)
Definition detector_down (text : string) : MoondreamClient Demo.Frame :=
  {| analyze_frame := fun _ _ => Returns text;
     detect_objects := fun _ => Raises (Exception "timed out") |}.

(** A file system holding one readable alert file and one damaged one. *)
Definition disk : AlertHandlerImpl.FileSystem string :=
  fun p =>
    if String.eqb p "alerts/alerts.json"
    then Some (AlertHandlerImpl.Json_list ["first"; "second"])
    else if String.eqb p "detections/detections.json"
    then Some AlertHandlerImpl.Unreadable
    else if String.eqb p "alerts/notes.json"
    then Some (AlertHandlerImpl.Json_other "dict")
    else None.

Definition result_at (t : Z) : AnalysisResult :=
  {| timestamp := inject_Z t; description := "a person";
     is_anomaly := true; confidence := "high"; persons_detected := true;
     detected_objects := [Demo.box];
     detection_result := Some {| objects := Some [Demo.box] |} |}.

(** A handler that was given three alerts. *)
Definition handler : AlertHandler Demo.Frame :=
  {| alerts := [ (Demo.solid 1, result_at 1); (Demo.solid 2, result_at 2);
                 (Demo.solid 3, result_at 3) ] |}.

End DemoMore.

(* ===================================================================== *)
(** * Properties *)

(** ** Substring search *)

Module PyStrFacts.
Import PyStr.

Lemma prefix_app_l (p s t : string) :
  String.prefix p s = true -> String.prefix p (s ++ t) = true.
Proof.
  revert s; induction p as [|a p IH]; intros s H.
  { destruct (s ++ t); reflexivity. }
  destruct s as [|c s]; simpl in *; [discriminate|].
  destruct (ascii_dec a c); [auto | discriminate].
Qed.

Lemma contains_app_l (p s t : string) :
  contains p s = true -> contains p (s ++ t) = true.
Proof.
  induction s as [|c s IH]; simpl; intros H.
  - apply orb_true_iff in H as [H|H]; [|discriminate].
    destruct p; [|discriminate]. destruct t; reflexivity.
  - apply orb_true_iff in H as [H|H]; apply orb_true_iff.
    + left. apply (prefix_app_l p (String c s) t H).
    + right. auto.
Qed.

Lemma contains_app_r (p s t : string) :
  contains p t = true -> contains p (s ++ t) = true.
Proof.
  intros H; induction s as [|c s IH]; simpl; [exact H|].
  apply orb_true_iff; right; exact IH.
Qed.

Lemma overlaps_tail (a : ascii) (p t : string) :
  overlaps p t = true -> overlaps (String a p) t = true.
Proof.
  unfold overlaps; intros H. simpl tails. simpl existsb.
  apply orb_true_iff; right. destruct p; exact H.
Qed.

Lemma prefix_app_inv (p s t : string) :
  String.prefix p (s ++ t) = true ->
  String.prefix p s = true \/ overlaps p t = true.
Proof.
  revert s; induction p as [|a p IH]; intros s H.
  { left. destruct s; reflexivity. }
  destruct s as [|c s].
  - right. simpl in H. unfold overlaps. simpl tails. simpl existsb.
    apply orb_true_iff; left. exact H.
  - simpl in H. simpl. destruct (ascii_dec a c); [|discriminate].
    destruct (IH s H) as [Hl|Hr]; [left; exact Hl|].
    right; apply overlaps_tail; exact Hr.
Qed.

(** An occurrence of [p] in [s ++ t] lies in [s], lies in [t], or
    straddles the junction. *)
Lemma contains_app_inv (p s t : string) :
  contains p (s ++ t) = true ->
  contains p s = true \/ overlaps p t = true \/ contains p t = true.
Proof.
  induction s as [|c s IH]; intros H.
  - right; right; exact H.
  - change (String c s ++ t) with (String c (s ++ t)) in H.
    simpl in H. apply orb_true_iff in H as [H|H].
    + destruct (prefix_app_inv p (String c s) t H) as [Hp|Ho].
      * left. change (String.prefix p (String c s) || contains p s = true).
        rewrite Hp. reflexivity.
      * right; left; exact Ho.
    + destruct (IH H) as [Hs|Hr]; [|right; exact Hr].
      left. change (String.prefix p (String c s) || contains p s = true).
      rewrite Hs. apply orb_true_r.
Qed.

Lemma contains_app_false (p s t : string) :
  contains p s = false -> overlaps p t = false -> contains p t = false ->
  contains p (s ++ t) = false.
Proof.
  intros Hs Ho Ht. destruct (contains p (s ++ t)) eqn:E; [|reflexivity].
  destruct (contains_app_inv p s t E) as [H|[H|H]]; congruence.
Qed.

End PyStrFacts.

(* ===================================================================== *)
(** ** The two-stage anomaly decision *)

Section AnalyzeFacts.
Context {Frame : Type}.
Import PyStr PyStrFacts AnomalyDetectorImpl.

Lemma matching_text_cases (d : string) :
  matching_text d = lower d \/ matching_text d = lower d ++ " person".
Proof.
  unfold matching_text.
  destruct (human_found (lower d) && negb (contains "person" (lower d)));
    [right | left]; reflexivity.
Qed.

Lemma contains_matching_text (p d : string) :
  contains p (lower d) = true -> contains p (matching_text d) = true.
Proof.
  intros H. destruct (matching_text_cases d) as [E|E]; rewrite E; [exact H|].
  apply contains_app_l; exact H.
Qed.

(** A negation phrase anywhere in the lower-cased text closes the gate,
    whatever the alert keywords are. *)
Lemma negation_closes_gate (self : AnomalyDetector Frame) (d phrase : string) :
  In phrase negation_phrases ->
  contains phrase (lower d) = true ->
  _check_for_anomaly self d = false.
Proof.
  intros Hin Hc. apply (contains_matching_text phrase d) in Hc.
  unfold _check_for_anomaly.
  simpl in Hin. destruct Hin as [<-|[<-|[<-|[<-|[]]]]]; rewrite Hc;
    rewrite ?orb_true_r; simpl; try reflexivity;
    destruct (_ || _); reflexivity.
Qed.

(** With the gate closed, [analyze] makes the description call only. *)
Lemma analyze_gate_closed (self : AnomalyDetector Frame) (ts : Q)
    (frame : Frame) (d : string) :
  analyze_frame (client self) frame (prompt self) = Returns d ->
  _check_for_anomaly self d = false ->
  Py.run (analyze self ts frame)
  = (Returns {| timestamp := ts; description := d; is_anomaly := false;
                confidence := "normal"; persons_detected := false;
                detected_objects := [];
                detection_result := Some empty_dict |},
     [Call_analyze_frame frame (prompt self)]).
Proof.
  intros Hd Hg.
  unfold Py.run, analyze, Py.try_except, Py.bind, Py.call_analyze_frame.
  simpl. rewrite Hd, Hg. reflexivity.
Qed.

(** With the gate open and the detector answering, both calls are made
    and the verdict is whether any object came back. *)
Lemma analyze_gate_open (self : AnomalyDetector Frame) (ts : Q)
    (frame : Frame) (d : string) (dr : DetectionDict) :
  analyze_frame (client self) frame (prompt self) = Returns d ->
  _check_for_anomaly self d = true ->
  detect_objects (client self) frame = Returns dr ->
  let n := List.length (get_objects dr) in
  let found := (0 <? n)%nat in
  Py.run (analyze self ts frame)
  = (Returns {| timestamp := ts;
                description :=
                  if found
                  then d ++ " [PERSON DETECTED: " ++ str_of_nat n
                         ++ " person(s) found]"
                  else d;
                is_anomaly := found;
                confidence := if found then "high" else "normal";
                persons_detected := found;
                detected_objects := get_objects dr;
                detection_result := Some dr |},
     [Call_analyze_frame frame (prompt self); Call_detect_objects frame]).
Proof.
  intros Hd Hg Hdr n found.
  unfold Py.run, analyze, Py.try_except, Py.bind, Py.call_analyze_frame,
    Py.call_detect_objects.
  simpl. rewrite Hd, Hg. simpl. rewrite Hdr. reflexivity.
Qed.

(** C1. When the description passes the keyword gate and the person
    localisation call returns, [analyze] returns a result whose verdict
    is the conjunction of the gate and "at least one object".  If the
    reply holds no object (an empty "objects" list, or no such key),
    [is_anomaly] is false, [confidence] is "normal" and no person is
    reported; if it holds one or more, [is_anomaly] is true,
    [confidence] is "high", [persons_detected] is true and the objects
    are those of the reply. *)
Theorem C1_two_stage_verdict (self : AnomalyDetector Frame) (ts : Q)
    (frame : Frame) (d : string) (dr : DetectionDict) :
  analyze_frame (client self) frame (prompt self) = Returns d ->
  _check_for_anomaly self d = true ->
  detect_objects (client self) frame = Returns dr ->
  exists result,
    fst (Py.run (analyze self ts frame)) = Returns result /\
    is_anomaly result
      = _check_for_anomaly self d && (0 <? List.length (get_objects dr))%nat /\
    (objects dr = None \/ objects dr = Some [] ->
       is_anomaly result = false /\ confidence result = "normal" /\
       persons_detected result = false /\ detected_objects result = []) /\
    (forall box boxes,
       objects dr = Some (box :: boxes) ->
       is_anomaly result = true /\ confidence result = "high" /\
       persons_detected result = true /\
       detected_objects result = box :: boxes).
Proof.
  intros Hd Hg Hdr.
  rewrite (analyze_gate_open self ts frame d dr Hd Hg Hdr).
  eexists; split; [reflexivity|]. simpl. rewrite Hg. simpl.
  split; [reflexivity|]. unfold get_objects. split.
  - intros [E|E]; rewrite E; simpl; auto.
  - intros box boxes E. rewrite E. simpl. auto.
Qed.

(** C2. If the lower-cased description contains one of the four negation
    phrases, the keyword gate is false for any list of alert keywords;
    when that description is what the classifier returned, [analyze]
    makes no localisation call (its only client call is the description
    call) and its result has [is_anomaly] false. *)
Theorem C2_negation_forces_gate_false (self : AnomalyDetector Frame)
    (ts : Q) (frame : Frame) (d : string) :
  (exists phrase, In phrase negation_phrases /\
                  contains phrase (lower d) = true) ->
  _check_for_anomaly self d = false /\
  (analyze_frame (client self) frame (prompt self) = Returns d ->
   exists result,
     Py.run (analyze self ts frame)
       = (Returns result, [Call_analyze_frame frame (prompt self)]) /\
     existsb is_detect_call (snd (Py.run (analyze self ts frame))) = false /\
     is_anomaly result = false).
Proof.
  intros [phrase [Hin Hc]].
  assert (Hg : _check_for_anomaly self d = false)
    by exact (negation_closes_gate self d phrase Hin Hc).
  split; [exact Hg|]. intros Hd.
  rewrite (analyze_gate_closed self ts frame d Hd Hg).
  eexists; repeat split; reflexivity.
Qed.

(** C5. If the description call raises, [analyze] returns (it does not
    raise) a result with [confidence] "error", [is_anomaly] false and
    description "Error: " followed by the text of the exception, and the
    description call is the only call made on the client. *)
Theorem C5_description_failure_absorbed (self : AnomalyDetector Frame)
    (ts : Q) (frame : Frame) (e : PyException) :
  analyze_frame (client self) frame (prompt self) = Raises e ->
  Py.run (analyze self ts frame)
  = (Returns {| timestamp := ts;
                description := "Error: " ++ str_of e;
                is_anomaly := false;
                confidence := "error";
                persons_detected := false;
                detected_objects := [];
                detection_result := None |},
     [Call_analyze_frame frame (prompt self)]) /\
  existsb is_detect_call (snd (Py.run (analyze self ts frame))) = false.
Proof.
  intros He.
  assert (E : Py.run (analyze self ts frame)
              = (Returns {| timestamp := ts;
                            description := "Error: " ++ str_of e;
                            is_anomaly := false;
                            confidence := "error";
                            persons_detected := false;
                            detected_objects := [];
                            detection_result := None |},
                 [Call_analyze_frame frame (prompt self)])).
  { unfold Py.run, analyze, Py.try_except, Py.bind, Py.call_analyze_frame.
    simpl. rewrite He. reflexivity. }
  rewrite E. split; reflexivity.
Qed.

(** C6. The human-word test is a substring test.  If the lower-cased
    description contains any listed human word anywhere (so also inside
    a longer word) and does not contain "person", the text searched is
    the lower-cased description followed by " person"; and if moreover
    it contains no negation phrase, the gate of the configured detector
    is true, "person" being one of its alert keywords. *)
Theorem C6_human_word_substring_opens_gate
    (moondream : MoondreamClient Frame) (d : string) :
  human_found (lower d) = true ->
  contains "person" (lower d) = false ->
  matching_text d = lower d ++ " person" /\
  In "person" (alert_keywords (__init__ moondream)) /\
  ((forall phrase, In phrase negation_phrases ->
                   contains phrase (lower d) = false) ->
   _check_for_anomaly (__init__ moondream) d = true).
Proof.
  intros Hh Hp.
  assert (E : matching_text d = lower d ++ " person").
  { unfold matching_text. rewrite Hh, Hp. reflexivity. }
  split; [exact E|]. split; [vm_compute; tauto|].
  intros Hneg. unfold _check_for_anomaly. rewrite E.
  assert (N : forall phrase, In phrase negation_phrases ->
                contains phrase (lower d ++ " person") = false).
  { intros phrase Hin. apply contains_app_false; [auto| |];
      simpl in Hin; destruct Hin as [<-|[<-|[<-|[<-|[]]]]]; reflexivity. }
  rewrite (N "no anomaly"), (N "nothing unusual"), (N "appears normal"),
    (N "everything looks normal") by (simpl; tauto).
  simpl orb. cbv iota.
  apply existsb_exists. exists "person". split; [vm_compute; tauto|].
  apply contains_app_r. reflexivity.
Qed.

End AnalyzeFacts.

Section AnalyzeWitnesses.
Import PyStr AnomalyDetectorImpl.

Lemma C1_two_stage_verdict_witness :
  let d := "a woman walking, looks suspicious" in
  _check_for_anomaly (__init__ (Demo.moondream d 1)) d = true /\
  (exists result,
     fst (Py.run (analyze (__init__ (Demo.moondream d 1)) 0 (Demo.solid 0)))
       = Returns result /\
     is_anomaly result = true /\ confidence result = "high" /\
     persons_detected result = true /\ detected_objects result = [Demo.box]) /\
  (exists result,
     fst (Py.run (analyze (__init__ (Demo.moondream d 0)) 0 (Demo.solid 0)))
       = Returns result /\
     is_anomaly result = false /\ confidence result = "normal" /\
     persons_detected result = false /\ detected_objects result = []).
Proof.
  intros d. split; [reflexivity|]. split.
  - destruct (C1_two_stage_verdict (__init__ (Demo.moondream d 1)) 0
                (Demo.solid 0) d {| objects := Some [Demo.box] |}
                eq_refl eq_refl eq_refl)
      as [result [Hrun [_ [_ Hsome]]]].
    exists result. split; [exact Hrun|]. exact (Hsome Demo.box [] eq_refl).
  - destruct (C1_two_stage_verdict (__init__ (Demo.moondream d 0)) 0
                (Demo.solid 0) d {| objects := Some [] |}
                eq_refl eq_refl eq_refl)
      as [result [Hrun [_ [Hnone _]]]].
    exists result. split; [exact Hrun|]. apply Hnone. right. reflexivity.
Defined.

Lemma C2_negation_forces_gate_false_witness :
  let d := "no anomaly detected, suspicious person nearby" in
  let self := __init__ (Demo.moondream d 1) in
  contains "no anomaly" (lower d) = true /\
  contains "suspicious" (lower d) = true /\
  _check_for_anomaly self d = false /\
  exists result,
    Py.run (analyze self 0 (Demo.solid 0))
      = (Returns result, [Call_analyze_frame (Demo.solid 0) (prompt self)]) /\
    existsb is_detect_call (snd (Py.run (analyze self 0 (Demo.solid 0)))) = false /\
    is_anomaly result = false.
Proof.
  intros d self.
  destruct (C2_negation_forces_gate_false self 0 (Demo.solid 0) d)
    as [Hgate Hrun].
  - exists "no anomaly". split; [simpl; tauto | reflexivity].
  - split; [reflexivity|]. split; [reflexivity|]. split; [exact Hgate|].
    apply Hrun. reflexivity.
Defined.

Lemma C5_description_failure_absorbed_witness :
  let self := __init__ Demo.broken in
  Py.run (analyze self 0 (Demo.solid 0))
  = (Returns {| timestamp := 0;
                description := "Error: connection refused";
                is_anomaly := false;
                confidence := "error";
                persons_detected := false;
                detected_objects := [];
                detection_result := None |},
     [Call_analyze_frame (Demo.solid 0) (prompt self)]) /\
  existsb is_detect_call (snd (Py.run (analyze self 0 (Demo.solid 0)))) = false.
Proof.
  apply (C5_description_failure_absorbed (__init__ Demo.broken) 0
           (Demo.solid 0) (Exception "connection refused")).
  reflexivity.
Defined.

Lemma C6_human_word_substring_opens_gate_witness :
  let d := "Many cars are parked along the road" in
  human_found (lower d) = true /\
  contains "person" (lower d) = false /\
  matching_text d = "many cars are parked along the road person" /\
  _check_for_anomaly (__init__ (Demo.moondream d 0)) d = true.
Proof.
  split; [reflexivity|]. split; [reflexivity|].
  destruct (C6_human_word_substring_opens_gate
              (Demo.moondream "Many cars are parked along the road" 0)
              "Many cars are parked along the road" eq_refl eq_refl)
    as [E [_ G]].
  split; [exact E|]. apply G.
  intros phrase Hin. simpl in Hin.
  destruct Hin as [<-|[<-|[<-|[<-|[]]]]]; reflexivity.
Defined.

End AnalyzeWitnesses.

(* ===================================================================== *)
(** ** The motion gate *)

Section MotionGateFacts.
Context {Frame Contour : Type} {cv : OpenCV Frame Contour} {cfg : Config}.
Import SurveillanceSystemImpl.

(** Whatever the verdict, the new state is the old one with the stored
    frame replaced. *)
Lemma detect_motion_state (self : SurveillanceSystem Frame) (frame : Frame) :
  snd (_detect_motion self frame)
  = set_previous_frame (Some (cvtColor_BGR2GRAY frame)) self.
Proof.
  unfold _detect_motion. destruct (previous_frame self); reflexivity.
Qed.

Lemma absdiff_row_self (row : list Z) :
  Forall (fun px => px = 0%Z)
         (map (fun px => Z.abs (fst px - snd px)) (combine row row)).
Proof.
  induction row as [|x row IH]; simpl; constructor; [|exact IH].
  rewrite Z.sub_diag. reflexivity.
Qed.

Lemma absdiff_self_blank (img : cv2.gray) : cv2.blank (cv2.absdiff img img).
Proof.
  unfold cv2.blank, cv2.absdiff.
  induction img as [|row img IH]; simpl; constructor; [|exact IH].
  apply absdiff_row_self.
Qed.

Lemma threshold_blank (img : cv2.gray) (thresh maxval : Z) :
  (0 <= thresh)%Z -> cv2.blank img -> cv2.blank (cv2.threshold img thresh maxval).
Proof.
  intros Ht. unfold cv2.blank, cv2.threshold.
  induction 1 as [|row img Hrow _ IH]; simpl; constructor; [|exact IH].
  induction Hrow as [|px row Hpx _ IHrow]; simpl; constructor; [|exact IHrow].
  subst px. destruct (Z.ltb_spec thresh 0); [lia | reflexivity].
Qed.

(** Nothing that runs ever assigns the two thresholds. *)
Lemma step_thresholds (self : SurveillanceSystem Frame) (a : Action Frame) :
  motion_threshold (step self a) = motion_threshold self /\
  min_motion_area (step self a) = min_motion_area self.
Proof.
  destruct a as [i|ts|]; simpl; [| |split; reflexivity].
  - destruct (running self); [|split; reflexivity].
    unfold _run_loop_body.
    destruct (CameraImpl.capture_frame (camera self) (read i)) as [frame|];
      [|split; reflexivity].
    pose proof (detect_motion_state self frame) as Hs.
    destruct (_detect_motion self frame) as [has_motion s1].
    simpl in Hs. subst s1.
    destruct (should_queue _ has_motion (current_time i));
      [unfold try_queue; destruct (Queue.put_nowait _ _)
      |destruct (negb has_motion)];
      (destruct (show_preview _); [destruct (key_q i)|]);
      split; reflexivity.
  - destruct (analysis_thread self) as [[|]|]; try (split; reflexivity).
    destruct (running self); [|split; reflexivity].
    unfold _analysis_worker_body.
    destruct (Queue.get (analysis_queue self)) as [[task q]|];
      [|split; reflexivity].
    destruct (fst (Py.run _)) as [result|e]; [|split; reflexivity].
    destruct (is_anomaly result); split; reflexivity.
Qed.

Lemma exec_thresholds (schedule : list (Action Frame))
    (self : SurveillanceSystem Frame) :
  motion_threshold (exec schedule self) = motion_threshold self /\
  min_motion_area (exec schedule self) = min_motion_area self.
Proof.
  revert self. induction schedule as [|a schedule IH]; intros self;
    [split; reflexivity|].
  change (exec (a :: schedule) self) with (exec schedule (step self a)).
  destruct (IH (step self a)) as [Ht Ha].
  destruct (step_thresholds self a) as [Ht' Ha'].
  split; congruence.
Qed.

(** The sum of the contour areas, whichever way it is added up. *)
Lemma total_area_from (contours : list Contour) (start : Q) :
  fold_left (fun acc contour => acc + contourArea contour) contours start
  == start + fold_right (fun contour acc => contourArea contour + acc)
                        0 contours.
Proof.
  revert start. induction contours as [|contour contours IH]; intros start;
    simpl.
  - ring.
  - rewrite IH. ring.
Qed.

Lemma total_area_sum (contours : list Contour) :
  total_area contours
  == fold_right (fun contour acc => contourArea contour + acc) 0 contours.
Proof.
  unfold total_area. rewrite total_area_from. ring.
Qed.

(** C7. On a state with no stored previous frame, [_detect_motion]
    answers true for every frame, whatever its content, and stores the
    grey version of the frame as the previous frame, changing nothing
    else.  No comparison takes place: the outcome is the same under any
    other contour extraction and area functions. *)
Theorem C7_first_call_reports_motion (self : SurveillanceSystem Frame)
    (frame : Frame) :
  previous_frame self = None ->
  fst (_detect_motion self frame) = true /\
  previous_frame (snd (_detect_motion self frame))
    = Some (cvtColor_BGR2GRAY frame) /\
  _detect_motion self frame
    = (true, set_previous_frame (Some (cvtColor_BGR2GRAY frame)) self) /\
  (forall other : Frame, fst (_detect_motion self other) = true) /\
  (forall cv' : OpenCV Frame Contour,
     cvtColor_BGR2GRAY (OpenCV := cv') frame
       = cvtColor_BGR2GRAY (OpenCV := cv) frame ->
     _detect_motion (cv := cv') self frame
       = _detect_motion (cv := cv) self frame).
Proof.
  intros H. unfold _detect_motion. rewrite H. simpl.
  split; [reflexivity|]. split; [reflexivity|]. split; [reflexivity|].
  split; [reflexivity|]. intros cv' E. rewrite E. reflexivity.
Qed.

(** C8. With a stored previous frame, [_detect_motion] reports motion
    exactly when the areas of the contours of the thresholded
    difference image add up to strictly more than [min_motion_area].
    When the contour extractor finds nothing in an image without set
    pixels, and the two thresholds are not negative, a second call on
    the same frame reports no motion.  The thresholds are 25 and 500 in
    a freshly built system and no schedule changes them. *)
Theorem C8_motion_iff_area_exceeds (self : SurveillanceSystem Frame)
    (frame : Frame) :
  (forall previous,
     previous_frame self = Some previous ->
     (fst (_detect_motion self frame) = true <->
      inject_Z (min_motion_area self)
      < fold_right (fun contour acc => contourArea contour + acc) 0
          (findContours
             (cv2.threshold
                (cv2.absdiff previous (cvtColor_BGR2GRAY frame))
                (motion_threshold self) 255)))) /\
  ((forall img, cv2.blank img -> findContours img = []) ->
   (0 <= motion_threshold self)%Z ->
   (0 <= min_motion_area self)%Z ->
   fst (_detect_motion (snd (_detect_motion self frame)) frame) = false) /\
  (forall (moondream : MoondreamClient Frame) camera_index show_preview,
     let fresh := __init__ moondream camera_index show_preview in
     motion_threshold fresh = 25%Z /\ min_motion_area fresh = 500%Z) /\
  (forall schedule,
     motion_threshold (exec schedule self) = motion_threshold self /\
     min_motion_area (exec schedule self) = min_motion_area self).
Proof.
  split; [|split; [|split; [split; reflexivity
                           |intros schedule; apply exec_thresholds]]].
  - intros previous H. unfold _detect_motion. rewrite H. simpl.
    rewrite negb_true_iff, <- not_true_iff_false, Qle_bool_iff.
    rewrite total_area_sum.
    split; [apply Qnot_le_lt | apply Qlt_not_le].
  - intros Hblank Ht Ha. rewrite detect_motion_state.
    unfold _detect_motion. simpl.
    rewrite Hblank
      by (apply threshold_blank; [exact Ht | apply absdiff_self_blank]).
    unfold total_area. simpl.
    rewrite negb_false_iff, Qle_bool_iff.
    change 0 with (inject_Z 0). rewrite <- Zle_Qle. exact Ha.
Qed.

(** C9. Every call of [_detect_motion], first or later and whatever its
    verdict, leaves the state as it was except that [previous_frame]
    holds the grey version of the current frame; in particular the two
    thresholds are unchanged. *)
Theorem C9_previous_frame_always_overwritten
    (self : SurveillanceSystem Frame) (frame : Frame) :
  snd (_detect_motion self frame)
    = set_previous_frame (Some (cvtColor_BGR2GRAY frame)) self /\
  previous_frame (snd (_detect_motion self frame))
    = Some (cvtColor_BGR2GRAY frame) /\
  motion_threshold (snd (_detect_motion self frame)) = motion_threshold self /\
  min_motion_area (snd (_detect_motion self frame)) = min_motion_area self.
Proof.
  rewrite detect_motion_state. repeat split; reflexivity.
Qed.

End MotionGateFacts.

Lemma C7_first_call_reports_motion_witness :
  previous_frame Demo.system = None /\
  fst (SurveillanceSystemImpl._detect_motion Demo.system (Demo.solid 200))
    = true /\
  previous_frame
    (snd (SurveillanceSystemImpl._detect_motion Demo.system (Demo.solid 200)))
    = Some (Demo.solid 200) /\
  fst (SurveillanceSystemImpl._detect_motion Demo.system (Demo.solid 0))
    = true.
Proof.
  destruct (C7_first_call_reports_motion (cv := Demo.cv) Demo.system
              (Demo.solid 200) eq_refl) as [Hverdict [Hstored [_ [Hany _]]]].
  split; [reflexivity|]. split; [exact Hverdict|].
  split; [exact Hstored | exact (Hany (Demo.solid 0))].
Defined.

Lemma row_regions_blank (img : cv2.gray) :
  cv2.blank img -> Demo.row_regions img = [].
Proof.
  unfold cv2.blank, Demo.row_regions.
  induction 1 as [|row img Hrow _ IH]; [reflexivity|]. simpl.
  assert (E : filter (fun px => negb (px =? 0)%Z) row = []).
  { induction Hrow as [|px row Hpx _ IHrow]; [reflexivity|].
    subst px. simpl. exact IHrow. }
  rewrite E. simpl. exact IH.
Qed.

Lemma C8_motion_iff_area_exceeds_witness :
  let seeded := snd (SurveillanceSystemImpl._detect_motion Demo.system
                       (Demo.solid 0)) in
  previous_frame seeded = Some (Demo.solid 0) /\
  fst (SurveillanceSystemImpl._detect_motion seeded (Demo.solid 200)) = true /\
  fst (SurveillanceSystemImpl._detect_motion seeded (Demo.solid 26)) = true /\
  fst (SurveillanceSystemImpl._detect_motion seeded (Demo.solid 25)) = false /\
  fst (SurveillanceSystemImpl._detect_motion
         (snd (SurveillanceSystemImpl._detect_motion seeded (Demo.solid 200)))
         (Demo.solid 200)) = false.
Proof.
  intros seeded.
  destruct (C8_motion_iff_area_exceeds (cv := Demo.cv) seeded (Demo.solid 200))
    as [Hfar [Hsame _]].
  destruct (C8_motion_iff_area_exceeds (cv := Demo.cv) seeded (Demo.solid 26))
    as [Habove _].
  destruct (C8_motion_iff_area_exceeds (cv := Demo.cv) seeded (Demo.solid 25))
    as [Hat _].
  split; [reflexivity|]. split; [|split; [|split]].
  - apply (Hfar (Demo.solid 0) eq_refl). vm_compute. reflexivity.
  - apply (Habove (Demo.solid 0) eq_refl). vm_compute. reflexivity.
  - pose proof (Hat (Demo.solid 0) eq_refl) as Hiff.
    destruct (fst (SurveillanceSystemImpl._detect_motion seeded (Demo.solid 25)));
      [|reflexivity].
    pose proof (proj1 Hiff eq_refl) as Hlt. vm_compute in Hlt.
    discriminate Hlt.
  - apply Hsame; [exact row_regions_blank | simpl; lia | simpl; lia].
Defined.

(* ===================================================================== *)
(** ** Start-up *)

Section LifecycleFacts.
Context {Frame Contour : Type} {cv : OpenCV Frame Contour} {cfg : Config}.
Import SurveillanceSystemImpl.

(** C10. When the camera does not open, [start] returns at once: the
    result, the same for every schedule, is the given state with the
    failed capture handle and the two records "starting" and "camera
    failed" logged.  The running flag and the worker thread are as they
    were, which for a freshly built system means not running and no
    thread, and nothing is queued or counted. *)
Theorem C10_failed_open_starts_nothing (schedule : list (Action Frame))
    (self : SurveillanceSystem Frame) :
  let failed := {| camera_index := camera_index (camera self);
                   cap := Some {| isOpened := false |} |} in
  start false schedule self
    = logger Log_camera_failed (set_camera failed (logger Log_starting self)) /\
  running (start false schedule self) = running self /\
  analysis_thread (start false schedule self) = analysis_thread self /\
  log (start false schedule self)
    = (log self ++ [Log_starting; Log_camera_failed])%list /\
  forall moondream camera_index show_preview,
    let fresh := start false schedule
                   (__init__ moondream camera_index show_preview) in
    running fresh = false /\
    analysis_thread fresh = None /\
    frame_count fresh = 0%Z /\
    Queue.queue (analysis_queue fresh) = [] /\
    previous_frame fresh = None /\
    log fresh = [Log_starting; Log_camera_failed].
Proof.
  simpl. repeat split.
  unfold start, logger. simpl. rewrite <- app_assoc. reflexivity.
Qed.

End LifecycleFacts.

(* ===================================================================== *)
(** ** The work queue *)

Section QueueFacts.
Context {Frame Contour : Type} {cv : OpenCV Frame Contour} {cfg : Config}.
Import SurveillanceSystemImpl.

Lemma full_at_capacity {A : Type} (q : Queue.t A) :
  Queue.maxsize q = 10%Z ->
  Queue.full q = (10 <=? Queue.qsize q)%nat.
Proof.
  intros Hm. unfold Queue.full. rewrite Hm.
  change (0 <? 10)%Z with true. rewrite andb_true_l.
  destruct (Z.leb_spec 10 (Z.of_nat (Queue.qsize q)));
    destruct (Nat.leb_spec 10 (Queue.qsize q)); try reflexivity; lia.
Qed.

Lemma try_queue_queue (self : SurveillanceSystem Frame) (frame : Frame) (t : Q) :
  analysis_queue (try_queue self frame t)
  = match Queue.put_nowait (analysis_queue self) (frame, t) with
    | Some q => q
    | None => analysis_queue self
    end.
Proof.
  unfold try_queue.
  destruct (Queue.put_nowait (analysis_queue self) (frame, t)); reflexivity.
Qed.

Lemma try_queue_within (self : SurveillanceSystem Frame) (frame : Frame) (t : Q) :
  within_capacity self -> within_capacity (try_queue self frame t).
Proof.
  unfold within_capacity. intros [Hm Hs]. rewrite try_queue_queue.
  unfold Queue.put_nowait. rewrite (full_at_capacity _ Hm).
  destruct (Nat.leb_spec 10 (Queue.qsize (analysis_queue self))) as [Hf|Hf];
    [split; assumption|].
  unfold Queue.qsize in *. simpl. rewrite length_app. simpl.
  split; [exact Hm | lia].
Qed.

Lemma run_loop_body_queue (self : SurveillanceSystem Frame) (i : LoopInput Frame) :
  analysis_queue (_run_loop_body self i) = analysis_queue self \/
  exists frame, analysis_queue (_run_loop_body self i)
                = analysis_queue (try_queue
                                    (snd (_detect_motion self frame))
                                    frame (current_time i)).
Proof.
  unfold _run_loop_body.
  destruct (CameraImpl.capture_frame (camera self) (read i)) as [frame|];
    [|left; reflexivity].
  pose proof (detect_motion_state self frame) as Hs.
  destruct (_detect_motion self frame) as [has_motion s1]. simpl in Hs. subst s1.
  set (s1 := set_previous_frame _ self).
  destruct (should_queue s1 has_motion (current_time i)).
  - right. exists frame. rewrite detect_motion_state. fold s1.
    destruct (show_preview _); [destruct (key_q i)|]; reflexivity.
  - left. destruct (negb has_motion);
      (destruct (show_preview _); [destruct (key_q i)|]); reflexivity.
Qed.

Lemma run_loop_body_within (self : SurveillanceSystem Frame) (i : LoopInput Frame) :
  within_capacity self -> within_capacity (_run_loop_body self i).
Proof.
  intros H. unfold within_capacity.
  destruct (run_loop_body_queue self i) as [E|[frame E]]; rewrite E.
  - exact H.
  - apply try_queue_within. rewrite detect_motion_state. exact H.
Qed.

Lemma worker_body_queue (self : SurveillanceSystem Frame) (ts : Q) :
  analysis_queue (_analysis_worker_body self ts)
  = match Queue.get (analysis_queue self) with
    | Some (_, q) => q
    | None => analysis_queue self
    end.
Proof.
  unfold _analysis_worker_body.
  destruct (Queue.get (analysis_queue self)) as [[task q]|]; [|reflexivity].
  destruct (fst (Py.run _)) as [result|e]; [|reflexivity].
  destruct (is_anomaly result); reflexivity.
Qed.

Lemma worker_body_within (self : SurveillanceSystem Frame) (ts : Q) :
  within_capacity self -> within_capacity (_analysis_worker_body self ts).
Proof.
  unfold within_capacity. intros [Hm Hs]. rewrite worker_body_queue.
  unfold Queue.get, Queue.qsize in *.
  destruct (Queue.queue (analysis_queue self)) as [|task rest] eqn:E;
    simpl in *; [rewrite E|]; (split; [exact Hm | simpl; lia]).
Qed.

Lemma step_within (self : SurveillanceSystem Frame) (a : Action Frame) :
  within_capacity self -> within_capacity (step self a).
Proof.
  intros H. destruct a as [i|ts|]; simpl.
  - destruct (running self); [apply run_loop_body_within|]; exact H.
  - destruct (analysis_thread self) as [[|]|]; try exact H.
    destruct (running self); [apply worker_body_within|]; exact H.
  - exact H.
Qed.

Lemma exec_within (schedule : list (Action Frame))
    (self : SurveillanceSystem Frame) :
  within_capacity self -> within_capacity (exec schedule self).
Proof.
  revert self. induction schedule as [|a schedule IH]; intros self H;
    [exact H|].
  apply IH, step_within, H.
Qed.

Lemma submit_all_queue (tasks : list (Frame * Q))
    (self : SurveillanceSystem Frame) :
  within_capacity self ->
  Queue.queue (analysis_queue (submit_all tasks self))
  = firstn 10 (Queue.queue (analysis_queue self) ++ tasks).
Proof.
  revert self. induction tasks as [|[frame t] tasks IH]; intros self H.
  - unfold submit_all. cbn [fold_left]. rewrite app_nil_r.
    symmetry. apply firstn_all2. apply H.
  - change (submit_all ((frame, t) :: tasks) self)
      with (submit_all tasks (try_queue self frame t)).
    rewrite (IH _ (try_queue_within self frame t H)).
    rewrite try_queue_queue. destruct H as [Hm Hs].
    unfold Queue.put_nowait. rewrite (full_at_capacity _ Hm).
    unfold Queue.qsize in *.
    destruct (Nat.leb_spec 10 (List.length (Queue.queue (analysis_queue self))))
      as [Hf|Hf].
    + assert (E : List.length (Queue.queue (analysis_queue self)) = 10%nat)
        by lia.
      rewrite !firstn_app, E, Nat.sub_diag. reflexivity.
    + cbn [Queue.queue]. rewrite <- app_assoc. reflexivity.
Qed.

Lemma init_within (moondream : MoondreamClient Frame)
    (camera_index : option Z) (show_preview : bool) :
  within_capacity (__init__ moondream camera_index show_preview).
Proof.
  split; [reflexivity | apply Nat.le_0_l].
Qed.

Lemma submit_all_within (tasks : list (Frame * Q))
    (self : SurveillanceSystem Frame) :
  within_capacity self -> within_capacity (submit_all tasks self).
Proof.
  revert self. induction tasks as [|[frame t] tasks IH]; intros self H;
    [exact H|].
  apply (IH (try_queue self frame t)), try_queue_within, H.
Qed.

(** C4. The queue built by [__init__] has capacity ten and starts
    empty; no schedule of capture passes, worker passes and signals, and
    no run of [start], takes it beyond ten tasks; on a queue holding ten
    tasks [put_nowait] fails at once and the pass leaves the queue as it
    was, only logging the drop; and after ten tasks were submitted to a
    fresh system with no worker pass the queue holds exactly those ten,
    the eleventh [put_nowait] fails, and the queue still holds the ten. *)
Theorem C4_queue_never_exceeds_capacity :
  (forall (moondream : MoondreamClient Frame) camera_index show_preview,
     within_capacity (__init__ moondream camera_index show_preview) /\
     Queue.queue (analysis_queue (__init__ moondream camera_index show_preview))
       = []) /\
  (forall (self : SurveillanceSystem Frame) schedule,
     within_capacity self -> within_capacity (exec schedule self)) /\
  (forall device_opens schedule moondream camera_index show_preview,
     within_capacity
       (start device_opens schedule
          (__init__ moondream camera_index show_preview))) /\
  (forall (self : SurveillanceSystem Frame) frame t,
     Queue.maxsize (analysis_queue self) = 10%Z ->
     Queue.qsize (analysis_queue self) = 10%nat ->
     Queue.put_nowait (analysis_queue self) (frame, t) = None /\
     try_queue self frame t = logger Log_queue_full self /\
     analysis_queue (try_queue self frame t) = analysis_queue self) /\
  (forall (moondream : MoondreamClient Frame) camera_index show_preview
          tasks task,
     List.length tasks = 10%nat ->
     let fresh := __init__ moondream camera_index show_preview in
     let filled := submit_all tasks fresh in
     Queue.queue (analysis_queue filled) = tasks /\
     Queue.put_nowait (analysis_queue filled) task = None /\
     Queue.queue (analysis_queue (submit_all (tasks ++ [task]) fresh)) = tasks).
Proof.
  assert (Hfull : forall (self : SurveillanceSystem Frame) frame t,
             Queue.maxsize (analysis_queue self) = 10%Z ->
             Queue.qsize (analysis_queue self) = 10%nat ->
             Queue.put_nowait (analysis_queue self) (frame, t) = None).
  { intros self frame t Hm Hs. unfold Queue.put_nowait.
    rewrite (full_at_capacity _ Hm), Hs. reflexivity. }
  split; [|split; [|split; [|split]]].
  - intros. split; [apply init_within | reflexivity].
  - intros self schedule. apply exec_within.
  - intros device_opens schedule moondream camera_index show_preview.
    destruct device_opens.
    + apply (exec_within schedule). apply init_within.
    + apply init_within.
  - intros self frame t Hm Hs. pose proof (Hfull self frame t Hm Hs) as E.
    unfold try_queue. rewrite E. repeat split; reflexivity.
  - intros moondream camera_index show_preview tasks task Hlen fresh filled.
    assert (Hq : Queue.queue (analysis_queue filled) = tasks).
    { unfold filled. rewrite submit_all_queue by apply init_within.
      change (firstn 10 tasks = tasks). rewrite <- Hlen. apply firstn_all. }
    split; [exact Hq|]. split.
    + destruct task as [frame t]. apply Hfull.
      * apply submit_all_within, init_within.
      * unfold Queue.qsize. rewrite Hq. exact Hlen.
    + rewrite submit_all_queue by apply init_within.
      change (firstn 10 (tasks ++ [task]) = tasks).
      rewrite firstn_app, Hlen, Nat.sub_diag, app_nil_r.
      rewrite <- Hlen. apply firstn_all.
Qed.

End QueueFacts.

Lemma C4_queue_never_exceeds_capacity_witness :
  let tasks := map (fun n => (Demo.solid n, inject_Z n))
                   [1; 2; 3; 4; 5; 6; 7; 8; 9; 10]%Z in
  let eleventh := (Demo.solid 11, inject_Z 11) in
  List.length tasks = 10%nat /\
  SurveillanceSystemImpl.within_capacity
    (SurveillanceSystemImpl.exec Demo.fill_queue Demo.live) /\
  Queue.queue (analysis_queue
                 (SurveillanceSystemImpl.submit_all tasks Demo.system)) = tasks /\
  Queue.put_nowait
    (analysis_queue (SurveillanceSystemImpl.submit_all tasks Demo.system))
    eleventh = None /\
  Queue.queue (analysis_queue
                 (SurveillanceSystemImpl.submit_all (tasks ++ [eleventh])
                    Demo.system)) = tasks.
Proof.
  intros tasks eleventh.
  destruct (C4_queue_never_exceeds_capacity (cv := Demo.cv) (cfg := Demo.cfg))
    as [_ [Hexec [_ [_ Heleven]]]].
  split; [reflexivity|]. split.
  - apply Hexec. split; [reflexivity | apply Nat.le_0_l].
  - exact (Heleven (Demo.moondream "a quiet street" 0) (Some 0%Z) false
             tasks eleventh eq_refl).
Defined.

(* ===================================================================== *)
(** ** The sampling decision *)

Section SamplingFacts.
Context {Frame Contour : Type} {cv : OpenCV Frame Contour} {cfg : Config}.
Import SurveillanceSystemImpl.

Lemma queued_times_app (l1 l2 : list LogRecord) :
  queued_times (l1 ++ l2) = (queued_times l1 ++ queued_times l2)%list.
Proof.
  induction l1 as [|r l1 IH]; [reflexivity|].
  destruct r; simpl; rewrite IH; reflexivity.
Qed.

Lemma should_queue_iff (self : SurveillanceSystem Frame) (has_motion : bool)
    (now : Q) :
  should_queue self has_motion now = true <->
  has_motion = true /\ FRAME_INTERVAL <= now - last_analysis_time self.
Proof.
  unfold should_queue. rewrite andb_true_iff, Qle_bool_iff. reflexivity.
Qed.

(** What [try_queue] does to the time stamp and to the log. *)
Lemma try_queue_effect (self : SurveillanceSystem Frame) (frame : Frame)
    (now : Q) :
  last_analysis_time (try_queue self frame now)
    = (if Queue.full (analysis_queue self)
       then last_analysis_time self else now) /\
  queued_times (log (try_queue self frame now))
    = (if Queue.full (analysis_queue self)
       then queued_times (log self)
       else queued_times (log self) ++ [now])%list.
Proof.
  unfold try_queue, Queue.put_nowait.
  destruct (Queue.full (analysis_queue self)); simpl;
    rewrite queued_times_app; simpl; rewrite ?app_nil_r; split; reflexivity.
Qed.

(** What one pass of the capture loop that got a frame does to them. *)
Lemma run_loop_body_effect (self : SurveillanceSystem Frame)
    (i : LoopInput Frame) (frame : Frame) :
  CameraImpl.capture_frame (camera self) (read i) = Some frame ->
  let accepted :=
    should_queue self (fst (_detect_motion self frame)) (current_time i)
    && negb (Queue.full (analysis_queue self)) in
  last_analysis_time (_run_loop_body self i)
    = (if accepted then current_time i else last_analysis_time self) /\
  queued_times (log (_run_loop_body self i))
    = (if accepted
       then queued_times (log self) ++ [current_time i]
       else queued_times (log self))%list.
Proof.
  intros Hcap. unfold _run_loop_body. rewrite Hcap.
  pose proof (detect_motion_state self frame) as Hs.
  destruct (_detect_motion self frame) as [has_motion s1].
  simpl in Hs. subst s1. simpl fst.
  set (s1 := set_previous_frame _ self).
  change (should_queue s1 has_motion (current_time i))
    with (should_queue self has_motion (current_time i)).
  destruct (should_queue self has_motion (current_time i)).
  - destruct (try_queue_effect s1 frame (current_time i)) as [Ht Hl].
    change (analysis_queue s1) with (analysis_queue self) in Ht, Hl.
    change (last_analysis_time s1) with (last_analysis_time self) in Ht.
    change (log s1) with (log self) in Hl.
    destruct (Queue.full (analysis_queue self)); simpl andb; cbv iota;
      (destruct (show_preview _); [destruct (key_q i)|]);
      split; assumption.
  - simpl andb. cbv iota.
    destruct (negb has_motion);
      (destruct (show_preview _); [destruct (key_q i)|]);
      split; reflexivity.
Qed.

Lemma run_loop_body_no_frame (self : SurveillanceSystem Frame)
    (i : LoopInput Frame) :
  CameraImpl.capture_frame (camera self) (read i) = None ->
  _run_loop_body self i = self.
Proof.
  intros Hcap. unfold _run_loop_body. rewrite Hcap. reflexivity.
Qed.

Lemma worker_body_effect (self : SurveillanceSystem Frame) (ts : Q) :
  last_analysis_time (_analysis_worker_body self ts) = last_analysis_time self /\
  queued_times (log (_analysis_worker_body self ts)) = queued_times (log self).
Proof.
  unfold _analysis_worker_body.
  destruct (Queue.get (analysis_queue self)) as [[task q]|];
    [|split; reflexivity].
  destruct (fst (Py.run _)) as [result|e]; [|split; reflexivity].
  destruct (is_anomaly result); simpl; [split; reflexivity|].
  rewrite queued_times_app. simpl. rewrite app_nil_r. split; reflexivity.
Qed.

(** An action either leaves time stamp and queued times alone, or is a
    capture pass that queued its frame at its own clock reading, which
    lies at least one interval after the previous time stamp. *)
Lemma step_effect (self : SurveillanceSystem Frame) (a : Action Frame) :
  (last_analysis_time (step self a) = last_analysis_time self /\
   queued_times (log (step self a)) = queued_times (log self)) \/
  (exists i, a = Capture i /\
     last_analysis_time (step self a) = current_time i /\
     queued_times (log (step self a))
       = (queued_times (log self) ++ [current_time i])%list /\
     FRAME_INTERVAL <= current_time i - last_analysis_time self).
Proof.
  destruct a as [i|ts|]; simpl.
  - destruct (running self); [|left; split; reflexivity].
    destruct (CameraImpl.capture_frame (camera self) (read i)) as [frame|] eqn:Hcap.
    + destruct (run_loop_body_effect self i frame Hcap) as [Ht Hl].
      destruct (should_queue self (fst (_detect_motion self frame))
                  (current_time i)) eqn:Hsq.
      * destruct (Queue.full (analysis_queue self)); simpl in Ht, Hl.
        -- left. split; assumption.
        -- right. exists i. repeat split; try assumption.
           apply should_queue_iff in Hsq. apply Hsq.
      * left. split; assumption.
    + rewrite (run_loop_body_no_frame self i Hcap). left. split; reflexivity.
  - destruct (analysis_thread self) as [[|]|]; try (left; split; reflexivity).
    destruct (running self); [|left; split; reflexivity].
    left. apply worker_body_effect.
  - left. split; [reflexivity|].
    rewrite queued_times_app. simpl. apply app_nil_r.
Qed.

Lemma StronglySorted_snoc {A : Type} (R : A -> A -> Prop) (l : list A) (x : A) :
  StronglySorted R l -> Forall (fun y => R y x) l ->
  StronglySorted R (l ++ [x]).
Proof.
  induction 1 as [|y l Hl IH Hy]; intros Hx; simpl.
  - constructor; constructor.
  - inversion Hx as [|? ? Hyx Hlx]; subst. constructor; [auto|].
    apply Forall_app. split; [exact Hy | constructor; [exact Hyx | constructor]].
Qed.

(** The invariant behind the spacing of queued frames. *)
Lemma exec_spacing (schedule : list (Action Frame))
    (self : SurveillanceSystem Frame) (base : Q) :
  StronglySorted (fun a b => FRAME_INTERVAL <= b - a)
                 (base :: queued_times (log self)) ->
  Forall (fun t => t <= last_analysis_time self)
         (base :: queued_times (log self)) ->
  last_analysis_time self = last (queued_times (log self)) base ->
  StronglySorted Qle (last_analysis_time self :: clock schedule) ->
  StronglySorted (fun a b => FRAME_INTERVAL <= b - a)
                 (base :: queued_times (log (exec schedule self))) /\
  last_analysis_time (exec schedule self)
    = last (queued_times (log (exec schedule self))) base.
Proof.
  revert self. induction schedule as [|a schedule IH];
    intros self Hgap Hle Hlast Hclock; [split; assumption|].
  change (exec (a :: schedule) self) with (exec schedule (step self a)).
  destruct (step_effect self a) as [[Et El]|[i [Ea [Et [El Hi]]]]].
  - apply IH; rewrite ?Et, ?El; try assumption.
    destruct a as [i|ts|]; try exact Hclock.
    simpl in Hclock. inversion Hclock as [|? ? Hs Hf]; subst.
    inversion Hf as [|? ? Hhd Htl]; subst.
    inversion Hs as [|? ? Hs' Hf']; subst.
    constructor; [exact Hs'|].
    eapply Forall_impl; [|exact Hf']. simpl. intros t Ht.
    eapply Qle_trans; eassumption.
  - subst a. simpl in Hclock.
    inversion Hclock as [|? ? Hs Hf]; subst.
    inversion Hf as [|? ? Hhd Htl]; subst.
    apply IH; rewrite ?Et, ?El.
    + apply (StronglySorted_snoc _ (base :: queued_times (log self)));
        [exact Hgap|].
      eapply Forall_impl; [|exact Hle]. simpl. intros t Ht. lra.
    + change (Forall (fun t => t <= current_time i)
                ((base :: queued_times (log self)) ++ [current_time i])).
      apply Forall_app. split.
      * eapply Forall_impl; [|exact Hle]. simpl. intros t Ht.
        eapply Qle_trans; eassumption.
      * constructor; [apply Qle_refl | constructor].
    + rewrite last_last. reflexivity.
    + exact Hs.
Qed.

End SamplingFacts.

Section SamplingDecision.
Context {Frame Contour : Type} {cv : OpenCV Frame Contour} {cfg : Config}.
Import SurveillanceSystemImpl.

(** C3, as amended.  The condition of the capture loop holds exactly
    when motion is present and [now - last_analysis_time] is at least
    the interval.  A pass that got a frame sets [last_analysis_time] to
    its clock reading, and logs the frame as queued, exactly when the
    condition holds and the queue is not full; otherwise both are left
    as they were.  Hence along any schedule whose clock never runs
    backwards the queued frames lie pairwise at least one interval apart
    (and as far from the initial time stamp), [last_analysis_time] is
    always the time of the last queued frame, and the condition holds
    whenever motion is present and at least the interval has passed
    since that frame. *)
Theorem C3_sampling_decision_by_acceptance :
  (forall (self : SurveillanceSystem Frame) has_motion now,
     should_queue self has_motion now = true <->
     has_motion = true /\ FRAME_INTERVAL <= now - last_analysis_time self) /\
  (forall (self : SurveillanceSystem Frame) i frame,
     CameraImpl.capture_frame (camera self) (read i) = Some frame ->
     let accepted :=
       should_queue self (fst (_detect_motion self frame)) (current_time i)
       && negb (Queue.full (analysis_queue self)) in
     last_analysis_time (_run_loop_body self i)
       = (if accepted then current_time i else last_analysis_time self) /\
     queued_times (log (_run_loop_body self i))
       = (if accepted
          then queued_times (log self) ++ [current_time i]
          else queued_times (log self))%list) /\
  (forall (self : SurveillanceSystem Frame) schedule,
     queued_times (log self) = [] ->
     StronglySorted Qle (last_analysis_time self :: clock schedule) ->
     let self' := exec schedule self in
     let last_queued :=
       last (queued_times (log self')) (last_analysis_time self) in
     StronglySorted (fun a b => FRAME_INTERVAL <= b - a)
                    (last_analysis_time self :: queued_times (log self')) /\
     last_analysis_time self' = last_queued /\
     forall now, FRAME_INTERVAL <= now - last_queued ->
                 should_queue self' true now = true).
Proof.
  split; [exact should_queue_iff|]. split; [exact run_loop_body_effect|].
  intros self schedule Hlog Hclock self' last_queued.
  destruct (exec_spacing schedule self (last_analysis_time self))
    as [Hgap Hlast].
  - rewrite Hlog. repeat constructor.
  - rewrite Hlog. repeat constructor. apply Qle_refl.
  - rewrite Hlog. reflexivity.
  - exact Hclock.
  - split; [exact Hgap|]. split; [exact Hlast|].
    intros now Hnow. apply should_queue_iff. split; [reflexivity|].
    fold self' in Hlast. rewrite Hlast. exact Hnow.
Qed.

End SamplingDecision.

(** The state named [Demo.live] is the one [start] runs its schedule on. *)
Lemma demo_live_reached (schedule : list (Action Demo.Frame)) :
  SurveillanceSystemImpl.start true schedule Demo.system
  = SurveillanceSystemImpl.stop (SurveillanceSystemImpl.exec schedule Demo.live).
Proof. reflexivity. Qed.

(** C3 as stated fails once the queue is full.  After ten frames were
    queued and none analysed, a frame with motion at second 1030 meets
    the condition, yet [last_analysis_time] stays at 1027 because
    [put_nowait] raised; so the condition holds again one second later,
    within the interval of two seconds. *)
Lemma C3_true_decision_without_update :
  let s := SurveillanceSystemImpl.exec Demo.fill_queue Demo.live in
  let i1 := {| read := Some (Demo.solid 0); current_time := 1030;
               key_q := false |} in
  let s1 := SurveillanceSystemImpl._run_loop_body s i1 in
  SurveillanceSystemImpl.should_queue s
    (fst (SurveillanceSystemImpl._detect_motion s (Demo.solid 0))) 1030 = true /\
  last_analysis_time s1 = 1027 /\
  ~ last_analysis_time s1 == 1030 /\
  SurveillanceSystemImpl.should_queue s1
    (fst (SurveillanceSystemImpl._detect_motion s1 (Demo.solid 200))) 1031 = true /\
  1031 - 1030 < FRAME_INTERVAL.
Proof.
  vm_compute. repeat split; intro; discriminate.
Qed.

Lemma C3_sampling_decision_by_acceptance_witness :
  let schedule :=
    (Demo.fill_queue ++ [Demo.pass 0 1030; Demo.pass 200 1031])%list in
  let s := SurveillanceSystemImpl.exec schedule Demo.live in
  SurveillanceSystemImpl.queued_times (log Demo.live) = [] /\
  StronglySorted Qle
    (last_analysis_time Demo.live :: SurveillanceSystemImpl.clock schedule) /\
  StronglySorted (fun a b => FRAME_INTERVAL <= b - a)
    (last_analysis_time Demo.live
       :: SurveillanceSystemImpl.queued_times (log s)) /\
  last_analysis_time s
    = last (SurveillanceSystemImpl.queued_times (log s))
           (last_analysis_time Demo.live).
Proof.
  intros schedule s.
  assert (Hclock : StronglySorted Qle
            (last_analysis_time Demo.live
               :: SurveillanceSystemImpl.clock schedule)).
  { repeat constructor; unfold Qle; simpl; lia. }
  split; [reflexivity|]. split; [exact Hclock|].
  destruct (C3_sampling_decision_by_acceptance (cv := Demo.cv) (cfg := Demo.cfg))
    as [_ [_ Hrun]].
  destruct (Hrun Demo.live schedule eq_refl Hclock) as [Hgap [Hlast _]].
  split; [exact Hgap | exact Hlast].
Defined.

(* ===================================================================== *)
(** * Further properties *)

(** ** [AnomalyDetector.analyze] and the keyword gate *)

Section AnalyzeMore.
Context {Frame : Type}.
Import PyStr PyStrFacts AnomalyDetectorImpl.

Lemma analyze_description_fails (self : AnomalyDetector Frame) (ts : Q)
    (frame : Frame) (e : PyException) :
  analyze_frame (client self) frame (prompt self) = Raises e ->
  Py.run (analyze self ts frame)
  = (Returns (error_result ts e), [Call_analyze_frame frame (prompt self)]).
Proof.
  intros He.
  unfold Py.run, analyze, Py.try_except, Py.bind, Py.call_analyze_frame.
  simpl. rewrite He. reflexivity.
Qed.

Lemma analyze_detect_fails (self : AnomalyDetector Frame) (ts : Q)
    (frame : Frame) (d : string) (e : PyException) :
  analyze_frame (client self) frame (prompt self) = Returns d ->
  _check_for_anomaly self d = true ->
  detect_objects (client self) frame = Raises e ->
  Py.run (analyze self ts frame)
  = (Returns (error_result ts e),
     [Call_analyze_frame frame (prompt self); Call_detect_objects frame]).
Proof.
  intros Hd Hg He.
  unfold Py.run, analyze, Py.try_except, Py.bind, Py.call_analyze_frame,
    Py.call_detect_objects.
  simpl. rewrite Hd, Hg. simpl. rewrite He. reflexivity.
Qed.

Lemma analyze_cases (self : AnomalyDetector Frame) (ts : Q) (frame : Frame) :
  analyze_case self ts frame (Py.run (analyze self ts frame)).
Proof.
  destruct (analyze_frame (client self) frame (prompt self)) as [d|e] eqn:Hd.
  - destruct (_check_for_anomaly self d) eqn:Hg.
    + destruct (detect_objects (client self) frame) as [dr|e] eqn:Hdr.
      * rewrite (analyze_gate_open self ts frame d dr Hd Hg Hdr).
        apply Case_detect_returns; assumption.
      * rewrite (analyze_detect_fails self ts frame d e Hd Hg Hdr).
        apply (Case_detect_fails self ts frame d e); assumption.
    + rewrite (analyze_gate_closed self ts frame d Hd Hg).
      apply Case_gate_closed; assumption.
  - rewrite (analyze_description_fails self ts frame e Hd).
    apply Case_description_fails; assumption.
Qed.

End AnalyzeMore.

Section AnalyzeProperties.
Context {Frame : Type}.
Import PyStr PyStrFacts AnomalyDetectorImpl.

(** X1. For a classifier whose calls return or raise an [Exception],
    which [except Exception] catches, [analyze] returns a result, and
    that result is coherent: it carries the time stamp given,
    [is_anomaly] equals [persons_detected], persons are detected exactly
    when [detected_objects] is not empty, [confidence] is "high" exactly
    when [is_anomaly] holds and is otherwise "normal" or "error". *)
Theorem analyze_returns_coherent_result (self : AnomalyDetector Frame)
    (ts : Q) (frame : Frame) :
  exists result,
    fst (Py.run (analyze self ts frame)) = Returns result /\
    timestamp result = ts /\
    is_anomaly result = persons_detected result /\
    (persons_detected result = true <-> detected_objects result <> []) /\
    (is_anomaly result = true <-> confidence result = "high") /\
    (is_anomaly result = false ->
     confidence result = "normal" \/ confidence result = "error").
Proof.
  destruct (analyze_cases self ts frame) as [e He|d Hd Hg|d e Hd Hg He|d dr Hd Hg Hdr];
    eexists; (split; [reflexivity|]); simpl;
    try (repeat split; try discriminate; try congruence; auto; fail).
  destruct (get_objects dr) as [|o objs]; simpl;
    repeat split; try discriminate; try congruence; auto.
Qed.

(** X2. When the description passed the gate and the localisation call
    raises, [analyze] still returns: the result is the error result
    built from that exception, so the classifier's description is not
    kept, and both calls were made. *)
Theorem analyze_absorbs_localisation_failure (self : AnomalyDetector Frame)
    (ts : Q) (frame : Frame) (d : string) (e : PyException) :
  analyze_frame (client self) frame (prompt self) = Returns d ->
  _check_for_anomaly self d = true ->
  detect_objects (client self) frame = Raises e ->
  exists result,
    Py.run (analyze self ts frame)
    = (Returns result,
       [Call_analyze_frame frame (prompt self); Call_detect_objects frame]) /\
    description result = "Error: " ++ str_of e /\
    is_anomaly result = false /\
    confidence result = "error" /\
    persons_detected result = false /\
    detected_objects result = [] /\
    detection_result result = None.
Proof.
  intros Hd Hg He. exists (error_result ts e).
  rewrite (analyze_detect_fails self ts frame d e Hd Hg He).
  repeat split; reflexivity.
Qed.

(** X3. The calls [analyze] makes on the client are always: one
    description call with the detector's prompt, then one localisation
    call on the same frame if the description came back and passed the
    gate, and nothing else. *)
Theorem analyze_call_protocol (self : AnomalyDetector Frame) (ts : Q)
    (frame : Frame) :
  snd (Py.run (analyze self ts frame))
  = Call_analyze_frame frame (prompt self)
    :: (if match analyze_frame (client self) frame (prompt self) with
           | Returns d => _check_for_anomaly self d
           | Raises _ => false
           end
        then [Call_detect_objects frame]
        else []).
Proof.
  destruct (analyze_cases self ts frame) as [e He|d Hd Hg|d e Hd Hg He|d dr Hd Hg Hdr];
    simpl; rewrite ?He, ?Hd, ?Hg; reflexivity.
Qed.

(** X4. When [analyze] does not end in its error branch, the description
    of its result is the classifier's text, followed by the annotation
    " [PERSON DETECTED: n person(s) found]", with n the number of
    detected objects, exactly when persons were detected. *)
Theorem analyze_description_annotation (self : AnomalyDetector Frame)
    (ts : Q) (frame : Frame) (d : string) (result : AnalysisResult) :
  analyze_frame (client self) frame (prompt self) = Returns d ->
  fst (Py.run (analyze self ts frame)) = Returns result ->
  confidence result <> "error" ->
  description result
  = if persons_detected result
    then d ++ " [PERSON DETECTED: "
           ++ str_of_nat (List.length (detected_objects result))
           ++ " person(s) found]"
    else d.
Proof.
  intros Hdesc Hrun Hconf.
  destruct (analyze_cases self ts frame) as [e He|d' Hd Hg|d' e Hd Hg He|d' dr Hd Hg Hdr];
    simpl in Hrun; injection Hrun as <-; simpl in *; try congruence;
    (assert (d' = d) by congruence); subst d'; reflexivity.
Qed.

End AnalyzeProperties.

Section AnalyzeMoreWitnesses.
Import PyStr AnomalyDetectorImpl.

Lemma analyze_absorbs_localisation_failure_witness :
  let d := "suspicious person at the door" in
  let self := __init__ (DemoMore.detector_down d) in
  _check_for_anomaly self d = true /\
  exists result,
    Py.run (analyze self 0 (Demo.solid 0))
    = (Returns result,
       [Call_analyze_frame (Demo.solid 0) (prompt self);
        Call_detect_objects (Demo.solid 0)]) /\
    description result = "Error: timed out" /\
    is_anomaly result = false /\
    confidence result = "error" /\
    persons_detected result = false /\
    detected_objects result = [] /\
    detection_result result = None.
Proof.
  intros d self. split; [reflexivity|].
  exact (analyze_absorbs_localisation_failure self 0 (Demo.solid 0) d
           (Exception "timed out") eq_refl eq_refl eq_refl).
Defined.

Lemma analyze_description_annotation_witness :
  let d := "a woman walking, looks suspicious" in
  let self := __init__ (Demo.moondream d 2) in
  exists result,
    fst (Py.run (analyze self 0 (Demo.solid 0))) = Returns result /\
    description result
    = "a woman walking, looks suspicious [PERSON DETECTED: 2 person(s) found]".
Proof.
  intros d self. eexists. split; [reflexivity|].
  apply (analyze_description_annotation self 0 (Demo.solid 0) d);
    [reflexivity | reflexivity | discriminate].
Defined.

End AnalyzeMoreWitnesses.

(** ** The keyword gate on the original text *)

Section GateProperties.
Context {Frame : Type}.
Import PyStr PyStrFacts AnomalyDetectorImpl.

Lemma check_for_anomaly_unfold (self : AnomalyDetector Frame) (d : string) :
  _check_for_anomaly self d
  = negb (existsb (fun p => contains p (matching_text d)) negation_phrases)
    && existsb (fun kw => contains kw (matching_text d)) (alert_keywords self).
Proof.
  unfold _check_for_anomaly, negation_phrases. simpl existsb.
  destruct (contains "no anomaly" (matching_text d)); [reflexivity|].
  destruct (contains "nothing unusual" (matching_text d)); [reflexivity|].
  destruct (contains "appears normal" (matching_text d)); [reflexivity|].
  destruct (contains "everything looks normal" (matching_text d));
    reflexivity.
Qed.

(** The appended " person" cannot complete a negation phrase. *)
Lemma negation_free_matching_text (d : string) :
  (forall phrase, In phrase negation_phrases ->
                  contains phrase (lower d) = false) ->
  existsb (fun p => contains p (matching_text d)) negation_phrases = false.
Proof.
  intros Hneg.
  destruct (existsb _ negation_phrases) eqn:E; [|reflexivity].
  apply existsb_exists in E as [phrase [Hin Hc]].
  destruct (matching_text_cases d) as [M|M]; rewrite M in Hc.
  - rewrite (Hneg phrase Hin) in Hc. discriminate.
  - rewrite contains_app_false in Hc; [discriminate|auto| |];
      simpl in Hin; destruct Hin as [<-|[<-|[<-|[<-|[]]]]]; reflexivity.
Qed.

Lemma lower_char_idempotent (c : ascii) :
  lower_char (lower_char c) = lower_char c.
Proof.
  destruct c as [[] [] [] [] [] [] [] []]; reflexivity.
Qed.

Lemma lower_idempotent (s : string) : lower (lower s) = lower s.
Proof.
  induction s as [|c s IH]; simpl; [reflexivity|].
  rewrite lower_char_idempotent, IH. reflexivity.
Qed.

(** X5. For the detector as configured, the gate is open exactly when
    the lower-cased description contains none of the four negation
    phrases and contains a human word or one of the alert keywords. *)
Theorem gate_open_iff (moondream : MoondreamClient Frame) (d : string) :
  _check_for_anomaly (__init__ moondream) d = true <->
  (forall phrase, In phrase negation_phrases ->
                  contains phrase (lower d) = false) /\
  (human_found (lower d) = true \/
   exists kw, In kw config.ALERT_KEYWORDS /\ contains kw (lower d) = true).
Proof.
  rewrite check_for_anomaly_unfold, andb_true_iff, negb_true_iff.
  change (alert_keywords (__init__ moondream)) with config.ALERT_KEYWORDS.
  split.
  - intros [Hneg Hkw]. split.
    + intros phrase Hin.
      destruct (contains phrase (lower d)) eqn:E; [|reflexivity].
      apply contains_matching_text in E.
      assert (X : existsb (fun p => contains p (matching_text d))
                    negation_phrases = true)
        by (apply existsb_exists; exists phrase; auto).
      congruence.
    + destruct (human_found (lower d)) eqn:Hh; [left; reflexivity|].
      right. apply existsb_exists in Hkw.
      unfold matching_text in Hkw. rewrite Hh in Hkw. exact Hkw.
  - intros [Hneg Hkw]. split; [apply negation_free_matching_text, Hneg|].
    apply existsb_exists. destruct Hkw as [Hh|[kw [Hin Hc]]].
    + exists "person". split; [vm_compute; tauto|].
      unfold matching_text. rewrite Hh.
      destruct (contains "person" (lower d)) eqn:Hp; simpl; [exact Hp|].
      apply contains_app_r. reflexivity.
    + exists kw. split; [exact Hin | apply contains_matching_text, Hc].
Qed.

(** X6. The gate does not depend on letter case: lower-casing the
    description beforehand leaves the verdict of any detector as it is. *)
Theorem gate_ignores_case (self : AnomalyDetector Frame) (d : string) :
  _check_for_anomaly self (lower d) = _check_for_anomaly self d.
Proof.
  unfold _check_for_anomaly, matching_text.
  rewrite lower_idempotent. reflexivity.
Qed.

End GateProperties.

(* ===================================================================== *)
(** ** The camera *)

Section CameraProperties.
Context {Frame : Type}.

(** X7. [capture_frame] yields a frame only on a camera whose handle is
    open, and then it is the frame the device delivered.  So a camera
    that was never started, whose start failed, or that was stopped
    yields nothing; a started one passes the device's frames through;
    stopping twice is stopping once, stopping a camera never started
    changes nothing, and leaving a [with] block always leaves the camera
    released. *)
Theorem camera_yields_frames_only_while_open (self : Camera)
    (read : option Frame) :
  (forall frame,
     CameraImpl.capture_frame self read = Some frame ->
     read = Some frame /\ cap self = Some {| isOpened := true |}) /\
  (cap self = None -> CameraImpl.capture_frame self read = None) /\
  CameraImpl.capture_frame (snd (CameraImpl.start self true)) read = read /\
  CameraImpl.capture_frame (snd (CameraImpl.start self false)) read = None /\
  CameraImpl.capture_frame (CameraImpl.stop self) read = None /\
  CameraImpl.stop (CameraImpl.stop self) = CameraImpl.stop self /\
  (cap self = None -> CameraImpl.stop self = self) /\
  (forall device_opens,
     fst (CameraImpl.start self device_opens) = device_opens /\
     CameraImpl.capture_frame
       (CameraContext.__exit__ (CameraContext.__enter__ self device_opens))
       read = None).
Proof.
  unfold CameraImpl.capture_frame, CameraImpl.stop, CameraImpl.start,
    CameraContext.__exit__, CameraContext.__enter__.
  split; [|split; [|split; [|split; [|split; [|split; [|split]]]]]].
  - intros frame. destruct (cap self) as [[[]]|]; simpl; intros H;
      split; congruence.
  - intros H; rewrite H; reflexivity.
  - reflexivity.
  - reflexivity.
  - destruct (cap self) eqn:E; simpl; rewrite ?E; reflexivity.
  - destruct (cap self) eqn:E; simpl; rewrite ?E; reflexivity.
  - intros H. rewrite H. reflexivity.
  - intros device_opens. destruct device_opens; split; reflexivity.
Qed.

End CameraProperties.

Lemma camera_yields_frames_only_while_open_witness :
  let opened := snd (CameraImpl.start (CameraImpl.__init__ None) true) in
  CameraImpl.capture_frame opened (Some (Demo.solid 7)) = Some (Demo.solid 7) /\
  cap opened = Some {| isOpened := true |} /\
  CameraImpl.capture_frame (CameraImpl.__init__ None)
    (Some (Demo.solid 7)) = None /\
  CameraImpl.stop (CameraImpl.__init__ None)
  = CameraImpl.__init__ None.
Proof.
  intros opened.
  destruct (camera_yields_frames_only_while_open (CameraImpl.__init__ None)
              (Some (Demo.solid 7)))
    as [_ [Hnone [_ [_ [_ [_ [Hstop _]]]]]]].
  destruct (camera_yields_frames_only_while_open opened (Some (Demo.solid 7)))
    as [Hopen _].
  split; [reflexivity|]. split; [apply (Hopen (Demo.solid 7)); reflexivity|].
  split; [apply Hnone; reflexivity | apply Hstop; reflexivity].
Defined.

(* ===================================================================== *)
(** ** Start, stop and the running flag *)

Section LifecycleProperties.
Context {Frame Contour : Type} {cv : OpenCV Frame Contour} {cfg : Config}.
Import SurveillanceSystemImpl.

(** What a capture pass that got a frame does to each field. *)
Lemma run_loop_body_fields (self : SurveillanceSystem Frame)
    (i : LoopInput Frame) (frame : Frame) :
  CameraImpl.capture_frame (camera self) (read i) = Some frame ->
  let accepted :=
    should_queue self (fst (_detect_motion self frame)) (current_time i)
    && negb (Queue.full (analysis_queue self)) in
  let self' := _run_loop_body self i in
  analysis_queue self'
    = (if accepted
       then {| Queue.maxsize := Queue.maxsize (analysis_queue self);
               Queue.queue := (Queue.queue (analysis_queue self)
                                 ++ [(frame, current_time i)])%list |}
       else analysis_queue self) /\
  frame_count self'
    = (if accepted then frame_count self + 1 else frame_count self)%Z /\
  previous_frame self' = Some (cvtColor_BGR2GRAY frame) /\
  running self' = running self && negb (show_preview self && key_q i) /\
  camera self' = camera self /\
  detector self' = detector self /\
  show_preview self' = show_preview self /\
  analysis_thread self' = analysis_thread self /\
  anomaly_count self' = anomaly_count self /\
  alert_handler self' = alert_handler self.
Proof.
  intros Hcap. unfold _run_loop_body. rewrite Hcap.
  pose proof (detect_motion_state self frame) as Hs.
  destruct (_detect_motion self frame) as [has_motion s1].
  simpl in Hs. subst s1. simpl fst.
  set (s1 := set_previous_frame _ self).
  change (should_queue s1 has_motion (current_time i))
    with (should_queue self has_motion (current_time i)).
  destruct (should_queue self has_motion (current_time i)).
  - unfold try_queue, Queue.put_nowait.
    change (analysis_queue s1) with (analysis_queue self).
    subst s1.
    destruct (Queue.full (analysis_queue self)); simpl;
      destruct (show_preview self) eqn:Esp; simpl;
      try (destruct (key_q i) eqn:Ek); simpl;
      rewrite ?Esp, ?Ek, ?andb_true_r, ?andb_false_r;
      repeat split; reflexivity.
  - subst s1. simpl. destruct (negb has_motion); simpl;
      destruct (show_preview self) eqn:Esp; simpl;
      try (destruct (key_q i) eqn:Ek); simpl;
      rewrite ?Esp, ?Ek, ?andb_true_r, ?andb_false_r;
      repeat split; reflexivity.
Qed.

(** What a worker pass does, given that [analyze] always returns. *)
Lemma worker_body_fields (self : SurveillanceSystem Frame) (ts : Q) :
  match Queue.get (analysis_queue self) with
  | None => _analysis_worker_body self ts = self
  | Some (task, q) =>
      exists result,
        fst (Py.run (AnomalyDetectorImpl.analyze (detector self) ts (fst task)))
          = Returns result /\
        _analysis_worker_body self ts
        = if is_anomaly result
          then set_alert_handler
                 (handle_alert (alert_handler self) (fst task) result)
                 (set_anomaly_count (anomaly_count self + 1)
                    (set_analysis_queue q self))
          else logger Log_analysis_complete (set_analysis_queue q self)
  end.
Proof.
  unfold _analysis_worker_body.
  destruct (Queue.get (analysis_queue self)) as [[task q]|]; [|reflexivity].
  change (detector (set_analysis_queue q self)) with (detector self).
  destruct (analyze_cases (detector self) ts (fst task));
    eexists; (split; [reflexivity|]); reflexivity.
Qed.

Lemma step_camera (self : SurveillanceSystem Frame) (a : Action Frame) :
  camera (step self a) = camera self.
Proof.
  destruct a as [i|ts|]; simpl; [| |reflexivity].
  - destruct (running self); [|reflexivity].
    destruct (CameraImpl.capture_frame (camera self) (read i)) as [frame|] eqn:E.
    + apply (run_loop_body_fields self i frame E).
    + unfold _run_loop_body. rewrite E. reflexivity.
  - destruct (analysis_thread self) as [[|]|]; try reflexivity.
    destruct (running self); [|reflexivity].
    pose proof (worker_body_fields self ts) as H.
    destruct (Queue.get (analysis_queue self)) as [[task q]|].
    + destruct H as [result [_ ->]]. destruct (is_anomaly result); reflexivity.
    + rewrite H. reflexivity.
Qed.

Lemma exec_camera (schedule : list (Action Frame))
    (self : SurveillanceSystem Frame) :
  camera (exec schedule self) = camera self.
Proof.
  revert self. induction schedule as [|a schedule IH]; intros self;
    [reflexivity|].
  change (exec (a :: schedule) self) with (exec schedule (step self a)).
  rewrite IH. apply step_camera.
Qed.

(** X8. However a freshly built system is started, with a camera that
    opens or not and whatever happens while it runs, when [start]
    returns the running flag is false and the camera yields no frame. *)
Theorem start_returns_stopped_and_released
    (moondream : MoondreamClient Frame) (camera_index : option Z)
    (show_preview device_opens : bool) (schedule : list (Action Frame))
    (read : option Frame) :
  let self := start device_opens schedule
                (__init__ moondream camera_index show_preview) in
  running self = false /\
  CameraImpl.capture_frame (camera self) read = None.
Proof.
  destruct device_opens; simpl.
  - unfold start. simpl. split; [reflexivity|].
    unfold stop. simpl. rewrite exec_camera. reflexivity.
  - split; reflexivity.
Qed.

End LifecycleProperties.

(* ===================================================================== *)
(** ** Queue order, counters and alerts *)

Section PipelineProperties.
Context {Frame Contour : Type} {cv : OpenCV Frame Contour} {cfg : Config}.
Import SurveillanceSystemImpl.

Lemma analyze_alert_facts (self : AnomalyDetector Frame) (ts : Q)
    (frame : Frame) (result : AnalysisResult) :
  fst (Py.run (AnomalyDetectorImpl.analyze self ts frame)) = Returns result ->
  is_anomaly result = true ->
  persons_detected result = true /\
  confidence result = "high" /\
  detected_objects result <> [] /\
  timestamp result = ts.
Proof.
  intros Hrun Ha.
  destruct (analyze_cases self ts frame) as [e He|d Hd Hg|d e Hd Hg He|d dr Hd Hg Hdr];
    simpl in Hrun; injection Hrun as <-; simpl in *; try discriminate.
  destruct (get_objects dr); simpl in *; [discriminate|].
  repeat split; congruence.
Qed.

(** The three things an action can do to queue, log and counters:
    nothing, queue one frame, or take the oldest task and analyse it. *)
Lemma step_summary (self : SurveillanceSystem Frame) (a : Action Frame) :
  let self' := step self a in
  (analysis_queue self' = analysis_queue self /\
   queued_times (log self') = queued_times (log self) /\
   frame_count self' = frame_count self /\
   anomaly_count self' = anomaly_count self /\
   alert_handler self' = alert_handler self) \/
  (exists frame t,
     Queue.queue (analysis_queue self')
       = (Queue.queue (analysis_queue self) ++ [(frame, t)])%list /\
     queued_times (log self') = (queued_times (log self) ++ [t])%list /\
     frame_count self' = (frame_count self + 1)%Z /\
     anomaly_count self' = anomaly_count self /\
     alert_handler self' = alert_handler self) \/
  (exists task rest result,
     Queue.queue (analysis_queue self) = task :: rest /\
     Queue.queue (analysis_queue self') = rest /\
     queued_times (log self') = queued_times (log self) /\
     frame_count self' = frame_count self /\
     (exists ts, fst (Py.run (AnomalyDetectorImpl.analyze (detector self) ts
                                (fst task))) = Returns result) /\
     (if is_anomaly result
      then anomaly_count self' = (anomaly_count self + 1)%Z /\
           alerts (alert_handler self')
             = (alerts (alert_handler self) ++ [(fst task, result)])%list
      else anomaly_count self' = anomaly_count self /\
           alert_handler self' = alert_handler self)).
Proof.
  assert (Idle : forall s : SurveillanceSystem Frame,
            analysis_queue s = analysis_queue s /\
            queued_times (log s) = queued_times (log s) /\
            frame_count s = frame_count s /\
            anomaly_count s = anomaly_count s /\
            alert_handler s = alert_handler s)
    by (intros; repeat split).
  destruct a as [i|ts|]; simpl.
  - destruct (running self); [|left; apply Idle].
    destruct (CameraImpl.capture_frame (camera self) (read i)) as [frame|] eqn:Hcap.
    + destruct (run_loop_body_fields self i frame Hcap)
        as [Hq [Hf [_ [_ [_ [_ [_ [_ [Hn Hh]]]]]]]]].
      destruct (run_loop_body_effect self i frame Hcap) as [_ Hl].
      destruct (should_queue self (fst (_detect_motion self frame))
                  (current_time i) && negb (Queue.full (analysis_queue self))).
      * right; left. exists frame, (current_time i).
        rewrite Hq. repeat split; assumption.
      * left. repeat split; assumption.
    + rewrite (run_loop_body_no_frame self i Hcap). left; apply Idle.
  - destruct (analysis_thread self) as [[|]|]; try (left; apply Idle).
    destruct (running self); [|left; apply Idle].
    pose proof (worker_body_fields self ts) as H.
    destruct (worker_body_effect self ts) as [_ Hl].
    unfold Queue.get in H.
    destruct (Queue.queue (analysis_queue self)) as [|task rest] eqn:Hq.
    + rewrite H. left; apply Idle.
    + destruct H as [result [Hrun E]]. right; right.
      exists task, rest, result.
      split; [reflexivity|]. rewrite Hl. rewrite E.
      destruct (is_anomaly result); simpl;
        repeat split; try reflexivity; exists ts; exact Hrun.
  - left. repeat split. rewrite queued_times_app. simpl. apply app_nil_r.
Qed.

(** X10. The queue holds, in order, the time stamps of the most
    recently queued frames: if the queued times in the log are those of
    the tasks already taken followed by those still in the queue, this
    stays so along every schedule, with the part taken only growing.
    Tasks leave oldest first and are never reordered or put back. *)
Theorem queue_holds_latest_frames_in_order (schedule : list (Action Frame))
    (self : SurveillanceSystem Frame) (taken : list Q) :
  queued_times (log self)
    = (taken ++ map snd (Queue.queue (analysis_queue self)))%list ->
  exists more,
    queued_times (log (exec schedule self))
    = ((taken ++ more)
         ++ map snd (Queue.queue (analysis_queue (exec schedule self))))%list.
Proof.
  revert self taken. induction schedule as [|a schedule IH];
    intros self taken H.
  - exists []. rewrite app_nil_r. exact H.
  - change (exec (a :: schedule) self) with (exec schedule (step self a)).
    destruct (step_summary self a)
      as [[Hq [Hl _]]|[[frame [t [Hq [Hl _]]]]|[task [rest [result
            [Hq [Hq' [Hl _]]]]]]]].
    + apply IH. rewrite Hl, Hq. exact H.
    + apply IH. rewrite Hl, Hq, H, map_app, app_assoc. reflexivity.
    + destruct (IH (step self a) (taken ++ [snd task])%list) as [more Hmore].
      * rewrite Hl, Hq', H, Hq. simpl. rewrite <- app_assoc. reflexivity.
      * exists (snd task :: more). rewrite Hmore.
        rewrite <- (app_assoc taken [snd task] more). reflexivity.
Qed.

(** X11. [frame_count] counts the frames queued: along every schedule
    it grows by exactly the number of "queued" records added to the
    log, so it never counts a frame that was dropped or throttled. *)
Theorem frame_count_counts_queued_frames (schedule : list (Action Frame))
    (self : SurveillanceSystem Frame) :
  (frame_count (exec schedule self)
   = frame_count self
     + Z.of_nat (List.length (queued_times (log (exec schedule self))))
     - Z.of_nat (List.length (queued_times (log self))))%Z.
Proof.
  revert self. induction schedule as [|a schedule IH]; intros self.
  - simpl. lia.
  - change (exec (a :: schedule) self) with (exec schedule (step self a)).
    rewrite IH.
    destruct (step_summary self a)
      as [[_ [Hl [Hf _]]]|[[frame [t [_ [Hl [Hf _]]]]]|[task [rest [result
            [_ [_ [Hl [Hf _]]]]]]]]];
      rewrite Hl, Hf, ?length_app; simpl; lia.
Qed.

(** X12. [anomaly_count] counts the alerts handed to the alert handler:
    along every schedule the handler receives new alerts at the end of
    its list, [anomaly_count] grows by their number, and every one of
    them is a result with [is_anomaly] and [persons_detected] true,
    [confidence] "high" and at least one detected object. *)
Theorem alerts_are_confirmed_anomalies (schedule : list (Action Frame))
    (self : SurveillanceSystem Frame) :
  exists new,
    alerts (alert_handler (exec schedule self))
      = (alerts (alert_handler self) ++ new)%list /\
    anomaly_count (exec schedule self)
      = (anomaly_count self + Z.of_nat (List.length new))%Z /\
    Forall (fun alert =>
              is_anomaly (snd alert) = true /\
              persons_detected (snd alert) = true /\
              confidence (snd alert) = "high" /\
              detected_objects (snd alert) <> [])
           new.
Proof.
  revert self. induction schedule as [|a schedule IH]; intros self.
  - exists []. simpl. rewrite app_nil_r, Z.add_0_r. repeat split. constructor.
  - change (exec (a :: schedule) self) with (exec schedule (step self a)).
    destruct (IH (step self a)) as [new [Ha [Hn Hall]]].
    destruct (step_summary self a)
      as [[_ [_ [_ [Hc Hh]]]]|[[frame [t [_ [_ [_ [Hc Hh]]]]]]|[task [rest
            [result [_ [_ [_ [_ [[ts Hrun] Hres]]]]]]]]]].
    + exists new. rewrite Ha, Hn, Hc, Hh. repeat split. exact Hall.
    + exists new. rewrite Ha, Hn, Hc, Hh. repeat split. exact Hall.
    + destruct (is_anomaly result) eqn:Hanom.
      * destruct Hres as [Hc Hh].
        exists ((fst task, result) :: new).
        rewrite Ha, Hn, Hc, Hh, <- app_assoc. simpl List.length.
        split; [reflexivity|]. split; [lia|].
        constructor; [|exact Hall]. simpl.
        destruct (analyze_alert_facts _ _ _ _ Hrun Hanom) as [Hp [Hconf [Ho _]]].
        auto.
      * destruct Hres as [Hc Hh].
        exists new. rewrite Ha, Hn, Hc, Hh. repeat split. exact Hall.
Qed.

End PipelineProperties.

Lemma queue_holds_latest_frames_in_order_witness :
  let schedule := (Demo.fill_queue ++ [Worker 5; Demo.pass 0 1030])%list in
  let self := SurveillanceSystemImpl.exec schedule Demo.live in
  SurveillanceSystemImpl.queued_times (log Demo.live)
    = ([] ++ map snd (Queue.queue (analysis_queue Demo.live)))%list /\
  exists more,
    SurveillanceSystemImpl.queued_times (log self)
    = (([] ++ more) ++ map snd (Queue.queue (analysis_queue self)))%list.
Proof.
  intros schedule self. split; [reflexivity|].
  exact (queue_holds_latest_frames_in_order (cv := Demo.cv) (cfg := Demo.cfg)
           schedule Demo.live [] eq_refl).
Defined.

Section PassProperties.
Context {Frame Contour : Type} {cv : OpenCV Frame Contour} {cfg : Config}.
Import SurveillanceSystemImpl.

(** X13. A capture pass that got a frame always leaves the grey version
    of that frame as the stored previous frame, whether the frame was
    queued, throttled, dropped on a full queue or showed no motion;
    motion is thus always measured against the frame captured just
    before, not against the one analysed last. *)
Theorem pass_stores_captured_frame (self : SurveillanceSystem Frame)
    (i : LoopInput Frame) (frame : Frame) :
  CameraImpl.capture_frame (camera self) (read i) = Some frame ->
  previous_frame (_run_loop_body self i) = Some (cvtColor_BGR2GRAY frame).
Proof.
  intros Hcap. apply (run_loop_body_fields self i frame Hcap).
Qed.

(** X14. A capture pass clears the running flag exactly when it got a
    frame, the preview is shown and the q key was pressed; it never sets
    the flag.  Without preview, or on a pass whose capture failed, the
    key is not looked at. *)
Theorem pass_clears_running_only_on_q (self : SurveillanceSystem Frame)
    (i : LoopInput Frame) :
  running (_run_loop_body self i)
  = running self
    && negb (match CameraImpl.capture_frame (camera self) (read i) with
             | Some _ => show_preview self && key_q i
             | None => false
             end).
Proof.
  destruct (CameraImpl.capture_frame (camera self) (read i)) as [frame|] eqn:Hcap.
  - apply (run_loop_body_fields self i frame Hcap).
  - rewrite (run_loop_body_no_frame self i Hcap), andb_true_r. reflexivity.
Qed.

(** X15. A worker pass on a running system with a task waiting takes
    exactly the oldest task off the queue, whatever its analysis gives:
    [analyze] returns a result, the anomaly count grows by one and the
    frame and result go to the alert handler if the result is an
    anomaly, and otherwise, a failed analysis included, neither changes
    and the task is not queued again. *)
Theorem worker_pass_consumes_oldest_task (self : SurveillanceSystem Frame)
    (ts : Q) (task : Frame * Q) (rest : list (Frame * Q)) :
  running self = true ->
  analysis_thread self = Some Thread_started ->
  Queue.queue (analysis_queue self) = task :: rest ->
  let self' := step self (Worker ts) in
  Queue.queue (analysis_queue self') = rest /\
  exists result,
    fst (Py.run (AnomalyDetectorImpl.analyze (detector self) ts (fst task)))
      = Returns result /\
    anomaly_count self'
      = (anomaly_count self + if is_anomaly result then 1 else 0)%Z /\
    alerts (alert_handler self')
      = (alerts (alert_handler self)
           ++ if is_anomaly result then [(fst task, result)] else [])%list /\
    frame_count self' = frame_count self /\
    last_analysis_time self' = last_analysis_time self /\
    running self' = true.
Proof.
  intros Hr Ht Hq. simpl. rewrite Ht, Hr.
  pose proof (worker_body_fields self ts) as H.
  unfold Queue.get in H. rewrite Hq in H.
  destruct H as [result [Hrun E]]. rewrite E.
  destruct (is_anomaly result) eqn:Ha; simpl.
  - split; [reflexivity|]. exists result. rewrite Ha.
    repeat split; try assumption; reflexivity.
  - split; [reflexivity|]. exists result. rewrite Ha, app_nil_r, Z.add_0_r.
    repeat split; try assumption; reflexivity.
Qed.

End PassProperties.

Lemma pass_stores_captured_frame_witness :
  let self := SurveillanceSystemImpl.exec Demo.fill_queue Demo.live in
  let i := {| read := Some (Demo.solid 90); current_time := 1028;
              key_q := false |} in
  Queue.full (analysis_queue self) = true /\
  previous_frame (SurveillanceSystemImpl._run_loop_body self i)
  = Some (Demo.solid 90).
Proof.
  intros self i. split; [reflexivity|].
  exact (pass_stores_captured_frame (cv := Demo.cv) (cfg := Demo.cfg)
           self i (Demo.solid 90) eq_refl).
Defined.

Lemma worker_pass_consumes_oldest_task_witness :
  let self := SurveillanceSystemImpl.exec [Demo.pass 0 1000; Demo.pass 200 1003]
                Demo.live in
  let self' := SurveillanceSystemImpl.step self (Worker 5) in
  Queue.queue (analysis_queue self)
    = [(Demo.solid 0, 1000); (Demo.solid 200, 1003)] /\
  Queue.queue (analysis_queue self') = [(Demo.solid 200, 1003)] /\
  exists result,
    fst (Py.run (AnomalyDetectorImpl.analyze (detector self) 5 (Demo.solid 0)))
      = Returns result /\
    anomaly_count self'
      = (anomaly_count self + if is_anomaly result then 1 else 0)%Z /\
    alerts (alert_handler self')
      = (alerts (alert_handler self)
           ++ if is_anomaly result then [(Demo.solid 0, result)] else [])%list /\
    frame_count self' = frame_count self /\
    last_analysis_time self' = last_analysis_time self /\
    running self' = true.
Proof.
  intros self self'. split; [reflexivity|].
  exact (worker_pass_consumes_oldest_task (cv := Demo.cv) (cfg := Demo.cfg)
           self 5 (Demo.solid 0, 1000) [(Demo.solid 200, 1003)]
           eq_refl eq_refl eq_refl).
Defined.

(* ===================================================================== *)
(** ** The alert handler *)

Section AlertHandlerProperties.
Context {Frame : Type}.
Import AlertHandlerImpl.

(** X16. [get_recent_alerts] always returns a final part of the alert
    list.  For a positive count that part has [count] alerts, or all of
    them if there are fewer; for count 0 it is the whole list, not the
    empty one; for a negative count it is the list without its first
    [-count] alerts. *)
Theorem get_recent_alerts_slices (self : AlertHandler Frame) (count : Z) :
  (exists older, alerts self = (older ++ get_recent_alerts self count)%list) /\
  ((0 < count)%Z ->
   List.length (get_recent_alerts self count)
   = Nat.min (Z.to_nat count) (List.length (alerts self))) /\
  (count = 0%Z -> get_recent_alerts self count = alerts self) /\
  ((count < 0)%Z ->
   get_recent_alerts self count = skipn (Z.to_nat (- count)) (alerts self)).
Proof.
  unfold get_recent_alerts, PyList.slice_from.
  set (l := alerts self). set (len := Z.of_nat (List.length l)).
  split; [|split; [|split]].
  - eexists. symmetry. apply firstn_skipn.
  - intros H. rewrite length_skipn.
    destruct (Z.ltb_spec (- count) 0); subst len; lia.
  - intros ->. change (- 0 <? 0)%Z with false. cbv iota.
    rewrite Z.min_l by (subst len; lia). reflexivity.
  - intros H. destruct (Z.ltb_spec (- count) 0); [lia|].
    destruct (Z.min_spec (- count) len) as [[_ E]|[Hle E]]; rewrite E;
      [reflexivity|].
    rewrite !skipn_all2; [reflexivity | lia | subst len; lia].
Qed.

End AlertHandlerProperties.

Section JsonFileProperties.
Context {A : Type}.
Import AlertHandlerImpl.

Lemma dump_same (fs : FileSystem A) (path : string) (c : FileContent A) :
  dump fs path c path = Some c.
Proof.
  unfold dump. rewrite String.eqb_refl. reflexivity.
Qed.

Lemma dump_other (fs : FileSystem A) (path p : string) (c : FileContent A) :
  p <> path -> dump fs path c p = fs p.
Proof.
  intros H. unfold dump. apply String.eqb_neq in H. rewrite H. reflexivity.
Qed.


End JsonFileProperties.

Lemma get_recent_alerts_slices_witness :
  AlertHandlerImpl.get_recent_alerts DemoMore.handler 2
    = [ (Demo.solid 2, DemoMore.result_at 2); (Demo.solid 3, DemoMore.result_at 3) ] /\
  List.length (AlertHandlerImpl.get_recent_alerts DemoMore.handler 2)
    = Nat.min (Z.to_nat 2) (List.length (alerts DemoMore.handler)) /\
  AlertHandlerImpl.get_recent_alerts DemoMore.handler 0 = alerts DemoMore.handler /\
  AlertHandlerImpl.get_recent_alerts DemoMore.handler (-1)
    = skipn (Z.to_nat (- -1)) (alerts DemoMore.handler).
Proof.
  destruct (get_recent_alerts_slices DemoMore.handler 2) as [_ [Hpos _]].
  destruct (get_recent_alerts_slices DemoMore.handler 0) as [_ [_ [Hzero _]]].
  destruct (get_recent_alerts_slices DemoMore.handler (-1)) as [_ [_ [_ Hneg]]].
  split; [reflexivity|]. split; [apply Hpos; reflexivity|].
  split; [apply Hzero; reflexivity | apply Hneg; reflexivity].
Defined.


(* ===================================================================== *)
(** ** The command line *)

Section MainProperties.
Context {Frame Contour : Type} {cv : OpenCV Frame Contour}.
Import Main.

(** X18. The interval option of [main] does not reach the capture loop.
    [main] assigns a non-zero [--interval] to the attribute of the
    module [config], but [surveillance.py] reads the name it imported
    from [config] beforehand, which keeps its value: the run is the same
    as without the option.  Nor does the run depend on
    [config.CAMERA_INDEX], since [main] always passes a camera index. *)
Theorem main_interval_option_has_no_effect (args : Args) (g : Globals)
    (camera_index_env camera_index_env' : Z)
    (new_client : Outcome (MoondreamClient Frame)) (device_opens : bool)
    (schedule : list (Action Frame)) :
  let without := {| args_camera := args_camera args;
                    args_no_preview := args_no_preview args;
                    args_interval := None |} in
  snd (main args g camera_index_env new_client device_opens schedule)
    = snd (main without g camera_index_env' new_client device_opens schedule) /\
  surveillance_FRAME_INTERVAL
    (fst (main args g camera_index_env new_client device_opens schedule))
    = surveillance_FRAME_INTERVAL g /\
  config_FRAME_INTERVAL
    (fst (main args g camera_index_env new_client device_opens schedule))
    = match args_interval args with
      | Some x => if truthy x then x else config_FRAME_INTERVAL g
      | None => config_FRAME_INTERVAL g
      end.
Proof.
  unfold main. simpl.
  destruct (args_interval args) as [x|]; [destruct (truthy x)|];
    destruct new_client; repeat split; reflexivity.
Qed.

End MainProperties.
